(** * FLAIR2 dataset loader (torchgeo/datasets/flair2.py): a shallow embedding

    The Python class [FLAIR2] is embedded function by function.  Pure
    helpers ([per_band_statistics], [_crop_super_patch], the label remap
    of [_load_target]) are plain functions.  Everything that touches the
    file system, the network or the class-level tables runs in a small
    state-and-exception monad [M] whose state holds the file system, the
    class attribute [dir_names] (one object shared by all instances) and a
    trace of the I/O events performed so far.

    Numbers: integer tensors carry [Z] (64-bit wrap-around written out
    where the code does arithmetic on them).  A float32 tensor carries,
    for each element, the rational number that the float denotes; the
    cast to float32 and the float32 division round to the nearest
    float32, ties to even, and that rounding is written out.  The floats
    that [json.load] returns are binary64 and are carried by Rocq's
    primitive floats. *)

From Stdlib Require Import QArith Qround Qabs Ascii String Sorted.
From Stdlib Require Import PrimFloat Uint63.
From stdpp Require Import base strings list gmap.

Set Default Proof Using "Type".

(** ** Python exceptions raised by the modelled code *)

Inductive exn : Type :=
  | AssertionError
  | DatasetNotFoundError
  | TypeError
  | KeyError
  | ValueError
  | IndexError
  | FileNotFoundError
  | RasterioIOError.

#[global] Instance exn_eq_dec : EqDecision exn.
Proof. solve_decision. Defined.

(** ** Strings and paths *)

Module Py.

(** [dict.get]-style lookup in an insertion-ordered dictionary. *)
Fixpoint assoc_get {V} (k : string) (d : list (string * V)) : option V :=
  match d with
  | [] => None
  | (k', v) :: d' => if String.eqb k k' then Some v else assoc_get k d'
  end.

(** [d[k] = v]: an existing key keeps its position, a new key goes last. *)
Fixpoint assoc_set {V} (k : string) (v : V) (d : list (string * V))
  : list (string * V) :=
  match d with
  | [] => [(k, v)]
  | (k', v') :: d' =>
      if String.eqb k k' then (k, v) :: d' else (k', v') :: assoc_set k v d'
  end.

(** [dict(items)] *)
Definition dict_of_items {V} (items : list (string * V)) : list (string * V) :=
  fold_left (fun d kv => assoc_set kv.1 kv.2 d) items [].

Definition keys {V} (d : list (string * V)) : list string := map fst d.
Definition values {V} (d : list (string * V)) : list V := map snd d.

(** [{k: f(v) for k, v in d.items()}] *)
Definition dict_map_values {V W} (f : V → W) (d : list (string * V))
  : list (string * W) :=
  dict_of_items (map (fun kv => (kv.1, f kv.2)) d).

Definition endswith_slash (s : string) : bool :=
  match String.rev s with
  | String c _ => Ascii.eqb c "/"%char
  | EmptyString => false
  end.

Definition startswith_slash (s : string) : bool :=
  match s with
  | String c _ => Ascii.eqb c "/"%char
  | EmptyString => false
  end.

(** One step of [posixpath.join]. *)
Definition join2 (path b : string) : string :=
  if startswith_slash b then b
  else if String.eqb path "" || endswith_slash path then path +:+ b
  else path +:+ "/" +:+ b.

(** [os.path.join(a, *p)] on strings. *)
Definition os_path_join (a : string) (p : list string) : string :=
  fold_left join2 p a.

(** [os.path.basename]: what follows the last slash. *)
Fixpoint basename_from (acc s : string) : string :=
  match s with
  | EmptyString => acc
  | String c s' =>
      if Ascii.eqb c "/"%char then basename_from "" s'
      else basename_from (acc +:+ String c "") s'
  end.

Definition os_path_basename (p : string) : string := basename_from "" p.

(** [s.replace(old, new)] for a non-empty [old]: occurrences are replaced
    left to right without overlap.  [skip] counts the characters of a
    match that are still to be dropped. *)
Fixpoint replace_from (old new : string) (skip : nat) (s : string) : string :=
  match s with
  | EmptyString => EmptyString
  | String c s' =>
      match skip with
      | S k => replace_from old new k s'
      | O =>
          if String.prefix old s
          then new +:+ replace_from old new (String.length old - 1) s'
          else String c (replace_from old new 0 s')
      end
  end.

(** For an empty [old] Python puts [new] before every character and at
    the end. *)
Fixpoint intersperse_all (new s : string) : string :=
  match s with
  | EmptyString => new
  | String c s' => new +:+ String c (intersperse_all new s')
  end.

Definition str_replace (s old new : string) : string :=
  if String.eqb old "" then intersperse_all new s
  else replace_from old new 0 s.

(** [sorted] on strings (an insertion sort; code-point order). *)
Fixpoint insert_sorted (x : string) (l : list string) : list string :=
  match l with
  | [] => [x]
  | y :: l' => if String.leb x y then x :: l else y :: insert_sorted x l'
  end.

Definition sorted (l : list string) : list string :=
  foldr insert_sorted [] l.

(** [zip] stops at the shortest argument. *)
Fixpoint zip3 {A B C} (a : list A) (b : list B) (c : list C)
  : list (A * B * C) :=
  match a, b, c with
  | x :: a', y :: b', z :: c' => (x, y, z) :: zip3 a' b' c'
  | _, _, _ => []
  end.

(** [l.remove(x)]: drops the first occurrence, [ValueError] if none. *)
Fixpoint list_remove (x : string) (l : list string) : option (list string) :=
  match l with
  | [] => None
  | y :: l' =>
      if String.eqb x y then Some l'
      else match list_remove x l' with
           | Some r => Some (y :: r)
           | None => None
           end
  end.

(** [l[i]] with Python's negative indices. *)
Definition getitem {A} (l : list A) (i : Z) : option A :=
  let n := Z.of_nat (length l) in
  if (0 <=? i)%Z then l !! Z.to_nat i
  else if (0 <=? i + n)%Z then l !! Z.to_nat (i + n)
  else None.

(** The characters of a [str], which is held here as its UTF-8 bytes: a
    byte [10xxxxxx] continues the character before it. *)
Definition is_continuation (b : ascii) : bool :=
  let n := N_of_ascii b in (128 <=? n)%N && (n <? 192)%N.

Fixpoint chars_from (cur : string) (s : string) : list string :=
  match s with
  | EmptyString => match cur with EmptyString => [] | _ => [cur] end
  | String b s' =>
      if is_continuation b then chars_from (cur +:+ String b "") s'
      else match cur with
           | EmptyString => chars_from (String b "") s'
           | _ => cur :: chars_from (String b "") s'
           end
  end.

Definition str_chars (s : string) : list string := chars_from "" s.

(** The bounds of [l[start:stop]] on a sequence of length [n]. *)
Definition clip_index (n i : Z) : Z :=
  if (i <? 0)%Z then Z.max (i + n) 0 else Z.min i n.

End Py.

(** ** Tensors *)

Definition tensor2 (A : Type) := list (list A).
Definition tensor3 (A : Type) := list (list (list A)).
Definition tensor4 (A : Type) := list (list (list (list A))).

(** What [json.load] can return: [None], a [bool], an [int], a [float]
    (binary64), a [str], a [list] or the members of a [dict] in the order
    of the document. *)
#[warnings="-register-all"]
Inductive json : Type :=
  | JNull
  | JBool (b : bool)
  | JInt (z : Z)
  | JFloat (f : float)
  | JStr (s : string)
  | JArr (items : list json)
  | JObj (members : list (string * json)).

(** A Python number: an [int] or a [float]. *)
Inductive num : Type :=
  | NInt (z : Z)
  | NFloat (f : float).

Bind Scope Z_scope with num.
Coercion NInt : Z >-> num.

(** [slice(start, stop)]; the bounds are the numbers the code computes. *)
Record slice := Slice { start : num; stop : num }.

(** Number of indices in the half-open range of a slice.  Python only
    slices with integer bounds, so a range with a float bound has no
    index. *)
Definition slice_span (s : slice) : Z :=
  match start s, stop s with
  | NInt a, NInt b => b - a
  | _, _ => 0
  end.

(** Spatial extent (height, width) of a time x channel x height x width
    tensor, read off its first image. *)
Definition spatial_extent {A} (t : tensor4 A) : nat * nat :=
  match t with
  | (img :: _) :: _ => (length img, length (hd [] img))
  | _ => (0, 0)
  end.

Definition num_channels {A} (t : tensor3 A) : nat := length t.

(** ** Class attributes of FLAIR2 *)

Definition splits : list string := ["train"; "test"].

Definition url_prefix : string :=
  "https://storage.gra.cloud.ovh.net/v1/AUTH_366279ce616242ebb14161b7991a8461/defi-ia/flair_data_2".

(** [dir_names] is a dictionary object owned by the class.  This is its
    value when the class is created; its current value lives in the state
    of the monad below. *)
Definition dir_names : list (string * list (string * string)) :=
  [ ("train", [ ("images", "flair_aerial_train");
                ("sentinels", "flair_sen_train");
                ("masks", "flair_labels_train") ]);
    ("test",  [ ("images", "flair_2_aerial_test");
                ("sentinels", "flair_2_sen_test");
                ("masks", "flair_2_labels_test") ]) ].

(** The values of [globs] are strings or, for the sentinel entry, a
    nested dictionary. *)
Inductive pyval : Type :=
  | PStr (s : string)
  | PDict (d : list (string * string)).

Definition globs : list (string * pyval) :=
  [ ("images", PStr "IMG_*.tif");
    ("sentinels", PDict [ ("data", "SEN2_*_data.npy");
                          ("snow_cloud_mask", "SEN2_*_masks.npy") ]);
    ("masks", PStr "MSK_*.tif") ].

Definition centroids_file : string := "flair-2_centroids_sp_to_patch".
Definition super_patch_size : Z := 40.

Definition rgb_bands : list string := ["B01"; "B02"; "B03"].
Definition all_bands : list string := ["B01"; "B02"; "B03"; "B04"; "B05"].

Definition classes : list string :=
  [ "building"; "pervious surface"; "impervious surface"; "bare soil";
    "water"; "coniferous"; "deciduous"; "brushwood"; "vineyard";
    "herbaceous vegetation"; "agricultural land"; "plowed land"; "other" ].

Record band_stat := BandStat {
  stat_min : Q;
  stat_max : Q;
  stat_mean : Q;
  stat_stdv : Q
}.

Definition statistics : list (string * list (string * band_stat)) :=
  [ ("train",
     [ ("B01", BandStat 0.0 255.0 113.77526983072 1.4678962001526);
       ("B02", BandStat 0.0 255.0 118.08112962721 1.2889349378677);
       ("B03", BandStat 0.0 255.0 109.27393364381 1.2674219560871);
       ("B04", BandStat 0.0 255.0 102.36417944851 1.1057592647291);
       ("B05", BandStat 0.0 255.0 16.697295721745 0.82764953440507) ]%Q) ].

(** ** per_band_statistics *)

Definition band_statistics : Type := list Q * list Q * list Q * list Q.

Definition per_band_statistics (split : string) (bands : list string)
  : exn + band_statistics :=
  match Py.assoc_get split statistics with
  | None => inl AssertionError
  | Some table =>
      let ordered_bands_statistics :=
        Py.values (Py.dict_of_items
                     (filter (fun keyval => keyval.1 ∈ bands) table)) in
      let mins := map stat_min ordered_bands_statistics in
      let maxs := map stat_max ordered_bands_statistics in
      let means := map stat_mean ordered_bands_statistics in
      let stdvs := map stat_stdv ordered_bands_statistics in
      inr (mins, maxs, means, stdvs)
  end.

(** The statistics "reordered to match the band subset's order", as the
    specification words it: one entry per requested band, in the order of
    the request.  Used only to compare with [per_band_statistics]. *)
Definition statistics_in_request_order (split : string) (bands : list string)
  : option band_statistics :=
  match Py.assoc_get split statistics with
  | None => None
  | Some table =>
      let found := omap (fun b => Py.assoc_get b table) bands in
      Some (map stat_min found, map stat_max found,
            map stat_mean found, map stat_stdv found)
  end.

(** ** _crop_super_patch *)

(** [y, x = centroid]: a list gives its items, a string its characters,
    a dict its keys, and there must be exactly two of them ([ValueError]
    otherwise); [None], a bool and a number cannot be unpacked
    ([TypeError]). *)
Definition unpack_pair (v : json) : exn + json * json :=
  match v with
  | JArr [y; x] => inr (y, x)
  | JArr _ => inl ValueError
  | JStr s =>
      match Py.str_chars s with
      | [y; x] => inr (JStr y, JStr x)
      | _ => inl ValueError
      end
  | JObj members =>
      match Py.keys (Py.dict_of_items members) with
      | [y; x] => inr (JStr y, JStr x)
      | _ => inl ValueError
      end
  | JNull | JBool _ | JInt _ | JFloat _ => inl TypeError
  end.

(** The float of a small non-negative Python int (exact below 2^53);
    the code only converts the constants 5 and 10. *)
Definition float_of_small_int (k : Z) : float :=
  PrimFloat.of_uint63 (Uint63.of_Z k).

(** [v - k] and [v + k] for an int [k]: an int stays an int, a bool
    counts as 0 or 1, a float is computed in binary64, anything else is a
    [TypeError]. *)
Definition py_sub (v : json) (k : Z) : exn + num :=
  match v with
  | JInt z => inr (NInt (z - k))
  | JBool b => inr (NInt (Z.b2z b - k))
  | JFloat f => inr (NFloat (PrimFloat.sub f (float_of_small_int k)))
  | _ => inl TypeError
  end.

Definition py_add (v : json) (k : Z) : exn + num :=
  match v with
  | JInt z => inr (NInt (z + k))
  | JBool b => inr (NInt (Z.b2z b + k))
  | JFloat f => inr (NFloat (PrimFloat.add f (float_of_small_int k)))
  | _ => inl TypeError
  end.

(** [data] is handed back as it came in; only the indices are computed,
    from the entry of the centroid table as [json.load] returned it. *)
Definition _crop_super_patch {A} (data : A) (centroid : json)
  : exn + (A * (slice * slice)) :=
  match unpack_pair centroid with
  | inl e => inl e
  | inr (y, x) =>
      let eigth_size := (super_patch_size / 8)%Z in
      let quarter_size := (super_patch_size / 4)%Z in
      match py_sub x eigth_size with
      | inl e => inl e
      | inr x_start =>
      match py_add x quarter_size with
      | inl e => inl e
      | inr x_stop =>
      match py_sub y eigth_size with
      | inl e => inl e
      | inr y_start =>
      match py_add y quarter_size with
      | inl e => inl e
      | inr y_stop =>
          let indices := (Slice x_start x_stop, Slice y_start y_stop) in
          inr (data, indices)
      end end end end
  end.

(** The specification's [applyCrop(array, window)]: the array restricted
    to the window's ranges on its last two axes, with Python's slicing
    rules.  Used only to compare with what the loader returns. *)
Definition slice_list {A} (s : slice) (l : list A) : list A :=
  match start s, stop s with
  | NInt first, NInt last =>
      let n := Z.of_nat (length l) in
      let lo := Py.clip_index n first in
      let hi := Py.clip_index n last in
      take (Z.to_nat (hi - lo)) (drop (Z.to_nat lo) l)
  | _, _ => []
  end.

Definition applyCrop {A} (array : tensor4 A) (window : slice * slice)
  : tensor4 A :=
  map (map (fun img => map (slice_list window.2) (slice_list window.1 img)))
      array.

(** ** The label remap of _load_target *)

Definition int64_min : Z := - 2 ^ 63.
Definition int64_max : Z := 2 ^ 63 - 1.

(** Two's-complement wrap-around of a 64-bit signed integer. *)
Definition wrap64 (z : Z) : Z := ((z + 2 ^ 63) mod 2 ^ 64 - 2 ^ 63)%Z.

(** [torch.clamp(v, lo, hi)] on one element: [min(max(v, lo), hi)]. *)
Definition clamp (v lo hi : Z) : Z := Z.min (Z.max v lo) hi.

(** One element of [torch.clamp(tensor - 1, 0, len(classes) - 1)]. *)
Definition remap_label (v : Z) : Z :=
  clamp (wrap64 (v - 1)) 0 (Z.of_nat (length classes) - 1).

Definition remap_mask (t : tensor2 Z) : tensor2 Z :=
  map (map remap_label) t.

(** ** The file system, the class state and the effect monad *)

(** What the code can observe of the file system.  [glob_matches p r] is
    [glob.glob(p, recursive=r)]; the three [_content] fields are what
    [json.load], [rasterio]'s [read] and [np.load] decode from a path
    ([None]: no such file). *)
Record World := {
  isfile : string → bool;
  isdir : string → bool;
  glob_matches : string → bool → list string;
  json_content : string → option (gmap string json);
  raster_content : string → option (tensor3 Z);
  npy_content : string → option (tensor4 Z)
}.

Inductive event : Type :=
  | EvIsFile (path : string)
  | EvIsDir (path : string)
  | EvGlob (pattern : string)
  | EvOpen (path : string)
  | EvDownload (url root : string)
  | EvExtract (zipfile : string).

#[global] Instance event_eq_dec : EqDecision event.
Proof. solve_decision. Defined.

Definition is_download (e : event) : bool :=
  match e with EvDownload _ _ => true | _ => false end.

Definition is_extract (e : event) : bool :=
  match e with EvExtract _ => true | _ => false end.

(** [cls_dir_names] is the one dictionary behind [FLAIR2.dir_names]:
    instances have no attribute of that name of their own, so
    [self.dir_names] resolves to it for every instance. *)
Record state := State {
  world : World;
  cls_dir_names : list (string * list (string * string));
  trace : list event
}.

Definition M (A : Type) : Type := state → (exn + A) * state.

Definition ret {A} (a : A) : M A := fun s => (inr a, s).

Definition raise {A} (e : exn) : M A := fun s => (inl e, s).

Definition bind {A B} (m : M A) (k : A → M B) : M B :=
  fun s =>
    match m s with
    | (inr a, s') => k a s'
    | (inl e, s') => (inl e, s')
    end.

Notation "'let*' x ':=' m 'in' k" := (bind m (fun x => k))
  (at level 10, x pattern, m at level 100, k at level 200).

Definition record_event (e : event) (s : state) : state :=
  State (world s) (cls_dir_names s) (trace s ++ [e]).

Definition of_option {A} (e : exn) (o : option A) : M A :=
  match o with
  | Some a => ret a
  | None => raise e
  end.

Definition os_path_isfile (p : string) : M bool :=
  fun s => (inr (isfile (world s) p), record_event (EvIsFile p) s).

Definition os_path_isdir (p : string) : M bool :=
  fun s => (inr (isdir (world s) p), record_event (EvIsDir p) s).

Definition glob_glob (pattern : string) (recursive : bool) : M (list string) :=
  fun s => (inr (glob_matches (world s) pattern recursive),
            record_event (EvGlob pattern) s).

Definition json_load (p : string) : M (gmap string json) :=
  fun s => (match json_content (world s) p with
            | Some d => inr d
            | None => inl FileNotFoundError
            end, record_event (EvOpen p) s).

Definition rasterio_read (p : string) : M (tensor3 Z) :=
  fun s => (match raster_content (world s) p with
            | Some a => inr a
            | None => inl RasterioIOError
            end, record_event (EvOpen p) s).

Definition np_load (p : string) : M (tensor4 Z) :=
  fun s => (match npy_content (world s) p with
            | Some a => inr a
            | None => inl FileNotFoundError
            end, record_event (EvOpen p) s).

(** [self.dir_names[key]] and [self.dir_names[key] = value]: both reach
    the class dictionary. *)
Definition dir_names_getitem (key : string) : M (list (string * string)) :=
  fun s => (match Py.assoc_get key (cls_dir_names s) with
            | Some d => inr d
            | None => inl KeyError
            end, s).

Definition dir_names_setitem (key : string) (value : list (string * string))
  : M unit :=
  fun s => (inr tt,
            State (world s) (Py.assoc_set key value (cls_dir_names s)) (trace s)).

(** [os.path.join(a, b, v)] where [v] was taken out of [globs]: joining a
    dictionary is a [TypeError]. *)
Definition os_path_join_val (a b : string) (v : pyval) : M string :=
  match v with
  | PStr s => ret (Py.os_path_join a [b; s])
  | PDict _ => raise TypeError
  end.

(** [self.globs[key]] *)
Definition globs_getitem (key : string) : M pyval :=
  of_option KeyError (Py.assoc_get key globs).

(** [v[sub]] for a value taken out of [globs]: a string cannot be indexed
    by a string. *)
Definition pyval_getitem (v : pyval) (sub : string) : M pyval :=
  match v with
  | PStr _ => raise TypeError
  | PDict d => let* s := of_option KeyError (Py.assoc_get sub d) in ret (PStr s)
  end.

(** ** Samples and dataset instances *)

Record sentinel_paths := SentinelPaths {
  paths_data : string;
  paths_snow_cloud_mask : string
}.

Record file_record := FileRecord {
  file_image : string;
  file_sentinel : sentinel_paths;
  file_mask : string
}.

Record sample := Sample {
  sample_image : tensor3 Q;
  sample_sentinel : list (tensor4 Q) * (slice * slice);
  sample_mask : tensor2 Z
}.

(** The attributes of one instance.  [centroids] and [files] are set at
    the end of [__init__]; until then they hold an empty placeholder that
    nothing reads. *)
Record FLAIR2 := Instance {
  root : string;
  split : string;
  transforms : option (sample → sample);
  download : bool;
  checksum : bool;
  bands : list string;
  use_toy : bool;
  centroids : gmap string json;
  files : list file_record
}.

Definition set_root (self : FLAIR2) (r : string) : FLAIR2 :=
  Instance r (split self) (transforms self) (download self) (checksum self)
           (bands self) (use_toy self) (centroids self) (files self).

Definition set_centroids (self : FLAIR2) (c : gmap string json) : FLAIR2 :=
  Instance (root self) (split self) (transforms self) (download self)
           (checksum self) (bands self) (use_toy self) c (files self).

Definition set_files (self : FLAIR2) (f : list file_record) : FLAIR2 :=
  Instance (root self) (split self) (transforms self) (download self)
           (checksum self) (bands self) (use_toy self) (centroids self) f.

(** What an instance sees as [self.dir_names] in a given state. *)
Definition observed_dir_names (self : FLAIR2) (s : state)
  : list (string * list (string * string)) :=
  cls_dir_names s.

Definition get_num_bands (self : FLAIR2) : nat := length (bands self).

Definition __len__ (self : FLAIR2) : nat := length (files self).

(** Rounding of a rational to the nearest integer, ties to the even
    one. *)
Definition round_half_even (q : Q) : Z :=
  let f := Qfloor q in
  match Qcompare (q - inject_Z f) (1 # 2) with
  | Lt => f
  | Gt => (f + 1)%Z
  | Eq => if Z.even f then f else (f + 1)%Z
  end.

(** [floor (log2 q)] for a positive rational. *)
Definition floor_log2 (q : Q) : Z :=
  let e := (Z.log2 (Qnum q) - Z.log2 (Zpos (Qden q)))%Z in
  if Qle_bool (Qpower 2 e) q then e else (e - 1)%Z.

(** The float32 nearest to a rational, ties to even: 24 significant
    bits, least exponent -126 (below it the spacing stays 2^-149).  The
    values met here, 64-bit integers and their fifths, are far from the
    overflow threshold, so infinities do not arise. *)
Definition round_float32 (q : Q) : Q :=
  if Qeq_bool q 0 then 0%Q
  else
    let e := Z.max (floor_log2 (Qabs q)) (-126) in
    let ulp := Qpower 2 (e - 23) in
    Qred (inject_Z (round_half_even (q / ulp)) * ulp).

(** [.float()] on one integer element. *)
Definition float_of_int (z : Z) : Q := round_float32 (inject_Z z).

(** [torch.div(x, k)] on one float32 element, for a Python int [k]. *)
Definition float32_div (x : Q) (k : Z) : Q := round_float32 (x / inject_Z k).

Definition to_float3 (t : tensor3 Z) : tensor3 Q :=
  map (map (map float_of_int)) t.

Definition to_float4 (t : tensor4 Z) : tensor4 Q :=
  map (map (map (map float_of_int))) t.

(** ** The methods of FLAIR2 *)

Section Dataset.

(** The two external collaborators, [utils.download_url(url, root)] and
    [utils.extract_archive(zipfile)], by their effect on the file
    system. *)
Variable download_url_effect : string → string → World → World.
Variable extract_archive_effect : string → World → World.

Definition download_url (url root : string) : M unit :=
  fun s => (inr tt,
            State (download_url_effect url root (world s)) (cls_dir_names s)
                  (trace s ++ [EvDownload url root])).

Definition extract_archive (zipfile : string) : M unit :=
  fun s => (inr tt,
            State (extract_archive_effect zipfile (world s)) (cls_dir_names s)
                  (trace s ++ [EvExtract zipfile])).

Definition _download (self : FLAIR2) (url : string) : M unit :=
  download_url (Py.os_path_join url_prefix [url +:+ ".zip"]) (root self).

Definition _extract (self : FLAIR2) (file_path : string) : M unit :=
  let zipfile := Py.os_path_join (root self) [file_path +:+ ".zip"] in
  extract_archive zipfile.

(** [_verify_toy] rebinds [self.root]; the updated instance is the
    result. *)
Definition _verify_toy (self : FLAIR2) : M FLAIR2 :=
  let toy_root := Py.os_path_join (root self) ["flair_2_toy_dataset"] in
  let* present := os_path_isdir toy_root in
  if present then ret (set_root self toy_root)
  else
    let* zipped :=
      os_path_isfile (Py.os_path_join (root self) ["flair_2_toy_dataset.zip"]) in
    if zipped then
      let* _ := _extract self "flair_2_toy_dataset" in
      ret (set_root self toy_root)
    else if negb (download self) then raise DatasetNotFoundError
    else
      let* _ := _download self "flair_2_toy_dataset" in
      let* _ := _extract self "flair_2_toy_dataset" in
      ret (set_root self toy_root).

(** The first loop of [_verify]: which directories of the split are
    absent or hold no matching file. *)
Fixpoint scan_dirs (self : FLAIR2) (items : list (string * string))
    (to_extract : list string) : M (list string) :=
  match items with
  | [] => ret to_extract
  | (train_or_test, dir_name) :: rest =>
      let downloaded_path := Py.os_path_join (root self) [dir_name] in
      let* present := os_path_isdir downloaded_path in
      if negb present then scan_dirs self rest (to_extract ++ [dir_name])
      else
        let* pattern := globs_getitem train_or_test in
        let* files_glob := os_path_join_val downloaded_path "**" pattern in
        let* found := glob_glob files_glob true in
        match found with
        | [] => scan_dirs self rest (to_extract ++ [dir_name])
        | _ :: _ => scan_dirs self rest to_extract
        end
  end.

(** The second loop: extract every candidate whose archive is on disk
    and take it off the download list. *)
Fixpoint extract_local (self : FLAIR2) (candidates to_download : list string)
    : M (list string) :=
  match candidates with
  | [] => ret to_download
  | candidate :: rest =>
      let zipfile := Py.os_path_join (root self) [candidate +:+ ".zip"] in
      let* found := glob_glob zipfile false in
      match found with
      | [] => extract_local self rest to_download
      | _ :: _ =>
          let* _ := _extract self candidate in
          let* to_download :=
            of_option ValueError (Py.list_remove candidate to_download) in
          extract_local self rest to_download
      end
  end.

(** The third loop: download and extract what is left. *)
Fixpoint download_all (self : FLAIR2) (to_download : list string) : M unit :=
  match to_download with
  | [] => ret tt
  | candidate :: rest =>
      let* _ := _download self candidate in
      let* _ := _extract self candidate in
      download_all self rest
  end.

Definition toy_rename (old : string) (d : list (string * string))
  : list (string * string) :=
  Py.dict_map_values (fun f => Py.str_replace f old "flair_2_toy") d.

Definition _verify (self : FLAIR2) : M FLAIR2 :=
  if use_toy self then
    let* self := _verify_toy self in
    let* train := dir_names_getitem "train" in
    let* _ := dir_names_setitem "train" (toy_rename "flair" train) in
    let* test := dir_names_getitem "test" in
    let* _ := dir_names_setitem "test" (toy_rename "flair_2" test) in
    ret self
  else
    let* has_json :=
      os_path_isfile (Py.os_path_join (root self) [centroids_file +:+ ".json"]) in
    let* _ :=
      if negb has_json then
        let* has_zip :=
          os_path_isfile
            (Py.os_path_join (root self) [centroids_file +:+ ".zip"]) in
        let* _ :=
          if negb has_zip then
            if negb (download self) then raise DatasetNotFoundError
            else _download self centroids_file
          else ret tt in
        _extract self centroids_file
      else ret tt in
    let* items := dir_names_getitem (split self) in
    let* to_extract := scan_dirs self items [] in
    match to_extract with
    | [] => ret self
    | _ :: _ =>
        let* to_download := extract_local self to_extract to_extract in
        match to_download with
        | [] => ret self
        | _ :: _ =>
            if negb (download self) then raise DatasetNotFoundError
            else
              let* _ := download_all self to_download in
              ret self
        end
    end.

Definition _load_centroids (self : FLAIR2) (filename : string)
  : M (gmap string json) :=
  json_load (Py.os_path_join (root self) [filename +:+ ".json"]).

(** [sorted(glob.glob(os.path.join(root, dir_names[split][kind], "**",
    pattern), recursive=True))]; the arguments of [join] are evaluated
    from left to right, the pattern last. *)
Definition sorted_glob (self : FLAIR2) (kind : string) (pattern : M pyval)
  : M (list string) :=
  let* by_kind := dir_names_getitem (split self) in
  let* dir_name := of_option KeyError (Py.assoc_get kind by_kind) in
  let* pattern := pattern in
  let* files_glob :=
    os_path_join_val (Py.os_path_join (root self) [dir_name]) "**" pattern in
  let* found := glob_glob files_glob true in
  ret (Py.sorted found).

(** [self.globs[key][sub]] *)
Definition globs_getitem2 (key sub : string) : M pyval :=
  let* v := globs_getitem key in
  pyval_getitem v sub.

Definition _load_files (self : FLAIR2) : M (list file_record) :=
  let* images := sorted_glob self "images" (globs_getitem "images") in
  let* sentinels_data :=
    sorted_glob self "sentinels" (globs_getitem2 "sentinels" "data") in
  let* sentinels_mask :=
    sorted_glob self "sentinels"
                (globs_getitem2 "sentinels" "snow_cloud_mask") in
  let sentinels :=
    map (fun dm => SentinelPaths dm.1 dm.2)
        (zip sentinels_data sentinels_mask) in
  let* masks := sorted_glob self "masks" (globs_getitem "masks") in
  ret (map (fun ism => FileRecord ism.1.1 ism.1.2 ism.2)
           (Py.zip3 images sentinels masks)).

(** [tensor[-1] = torch.div(tensor[-1], 5)] *)
Definition rescale_last (tensor : tensor3 Q) : M (tensor3 Q) :=
  match last tensor with
  | None => raise IndexError
  | Some height =>
      ret (removelast tensor ++ [map (map (fun v => float32_div v 5)) height])
  end.

Definition _load_image (self : FLAIR2) (path : string) : M (tensor3 Q) :=
  let* array := rasterio_read path in
  let tensor := to_float3 array in
  if bool_decide ("B05" ∈ bands self) then rescale_last tensor
  else ret tensor.

Definition _load_sentinel (self : FLAIR2) (paths : sentinel_paths)
    (aerial_path : string) : M (list (tensor4 Q) * (slice * slice)) :=
  let* data := np_load (paths_data paths) in
  let data := to_float4 data in
  let* snow_cloud_mask := np_load (paths_snow_cloud_mask paths) in
  let snow_cloud_mask := to_float4 snow_cloud_mask in
  let img_id := Py.os_path_basename aerial_path in
  let* centroid := of_option KeyError (centroids self !! img_id) in
  let* (cropped_data, cropping_indices) :=
    (fun s => (_crop_super_patch data centroid, s)) in
  let* centroid := of_option KeyError (centroids self !! img_id) in
  let* (cropped_snow_cloud_mask, _) :=
    (fun s => (_crop_super_patch snow_cloud_mask centroid, s)) in
  ret ([cropped_data; cropped_snow_cloud_mask], cropping_indices).

(** [f.read(1)] is the first band of the raster. *)
Definition _load_target (self : FLAIR2) (path : string) : M (tensor2 Z) :=
  let* bands_of_file := rasterio_read path in
  let* array := of_option IndexError (bands_of_file !! 0%nat) in
  ret (remap_mask array).

Definition __getitem__ (self : FLAIR2) (index : Z) : M sample :=
  let* entry := of_option IndexError (Py.getitem (files self) index) in
  let aerial_fn := file_image entry in
  let sentinel_fn := file_sentinel entry in
  let mask_fn := file_mask entry in
  let* aerial := _load_image self aerial_fn in
  let* sentinel := _load_sentinel self sentinel_fn aerial_fn in
  let* mask := _load_target self mask_fn in
  let image := aerial in
  let sample := Sample image sentinel mask in
  match transforms self with
  | Some f => ret (f sample)
  | None => ret sample
  end.

(** The [assert] on the split is the first statement (assertions are
    taken as enabled). *)
Definition __init__ (root split : string) (bands : list string)
    (transforms : option (sample → sample))
    (download checksum use_toy : bool) : M FLAIR2 :=
  if negb (bool_decide (split ∈ splits)) then raise AssertionError
  else
    let self :=
      Instance root split transforms download checksum bands use_toy ∅ [] in
    let* self := _verify self in
    let* table := _load_centroids self centroids_file in
    let self := set_centroids self table in
    let* index := _load_files self in
    ret (set_files self index).

End Dataset.

(** ** Concrete file systems used to run the code *)

Module Scenario.

(** A finite description of a disk, and the [World] it presents. *)
Record disk := Disk {
  disk_files : list string;
  disk_dirs : list string;
  disk_glob : list (string * list string);
  disk_json : list (string * gmap string json);
  disk_raster : list (string * tensor3 Z);
  disk_npy : list (string * tensor4 Z)
}.

Definition mount (d : disk) : World :=
  {| isfile := fun p => bool_decide (p ∈ disk_files d);
     isdir := fun p => bool_decide (p ∈ disk_dirs d);
     glob_matches := fun p _ => default [] (Py.assoc_get p (disk_glob d));
     json_content := fun p => Py.assoc_get p (disk_json d);
     raster_content := fun p => Py.assoc_get p (disk_raster d);
     npy_content := fun p => Py.assoc_get p (disk_npy d) |}.

(** Stand-ins for the collaborators: a download puts the archive under
    [root], an extraction creates the directory named like the archive.
    Neither touches what the globs report. *)
Definition fetch (url root : string) (w : World) : World :=
  let target := Py.os_path_join root [Py.os_path_basename url] in
  {| isfile := fun p => String.eqb p target || isfile w p;
     isdir := isdir w;
     glob_matches := glob_matches w;
     json_content := json_content w;
     raster_content := raster_content w;
     npy_content := npy_content w |}.

Definition strip_zip (zipfile : string) : string :=
  String.substring 0 (String.length zipfile - 4) zipfile.

Definition unpack (zipfile : string) (w : World) : World :=
  {| isfile := isfile w;
     isdir := fun p => String.eqb p (strip_zip zipfile) || isdir w p;
     glob_matches := glob_matches w;
     json_content := json_content w;
     raster_content := raster_content w;
     npy_content := npy_content w |}.

(** *** An extracted toy dataset with one sample *)

Definition toy_root : string := "data/flair_2_toy_dataset".

Definition toy_image : string :=
  "data/flair_2_toy_dataset/flair_2_toy_aerial_train/D004/Z1/img/IMG_000001.tif".
Definition toy_label : string :=
  "data/flair_2_toy_dataset/flair_2_toy_labels_train/D004/Z1/msk/MSK_000001.tif".
Definition toy_sen_data : string :=
  "data/flair_2_toy_dataset/flair_2_toy_sen_train/D004/Z1/sen/SEN2_sp_D004_data.npy".
Definition toy_sen_masks : string :=
  "data/flair_2_toy_dataset/flair_2_toy_sen_train/D004/Z1/sen/SEN2_sp_D004_masks.npy".

(** Five channels (B01..B05) of 2 x 2 pixels. *)
Definition toy_aerial_raster : tensor3 Z :=
  [ [[10; 11]; [12; 13]]; [[20; 21]; [22; 23]]; [[30; 31]; [32; 33]];
    [[40; 41]; [42; 43]]; [[50; 55]; [60; 65]] ]%Z.

Definition toy_label_raster : tensor3 Z := [ [[0; 1]; [14; 19]] ]%Z.

(** One date, one channel, a 40 x 40 super-area. *)
Definition toy_super_area (v : Z) : tensor4 Z :=
  [ [ replicate 40 (replicate 40 v) ] ].

Definition toy_disk : disk :=
  {| disk_files :=
       [ "data/flair_2_toy_dataset/flair-2_centroids_sp_to_patch.json";
         toy_image; toy_label; toy_sen_data; toy_sen_masks ];
     disk_dirs :=
       [ "data"; toy_root;
         "data/flair_2_toy_dataset/flair_2_toy_aerial_train";
         "data/flair_2_toy_dataset/flair_2_toy_sen_train";
         "data/flair_2_toy_dataset/flair_2_toy_labels_train" ];
     disk_glob :=
       [ ("data/flair_2_toy_dataset/flair_2_toy_aerial_train/**/IMG_*.tif",
          [toy_image]);
         ("data/flair_2_toy_dataset/flair_2_toy_sen_train/**/SEN2_*_data.npy",
          [toy_sen_data]);
         ("data/flair_2_toy_dataset/flair_2_toy_sen_train/**/SEN2_*_masks.npy",
          [toy_sen_masks]);
         ("data/flair_2_toy_dataset/flair_2_toy_labels_train/**/MSK_*.tif",
          [toy_label]) ];
     disk_json :=
       [ ("data/flair_2_toy_dataset/flair-2_centroids_sp_to_patch.json",
          {[ "IMG_000001.tif" := JArr [JInt 20; JInt 17] ]}) ];
     disk_raster :=
       [ (toy_image, toy_aerial_raster); (toy_label, toy_label_raster) ];
     disk_npy :=
       [ (toy_sen_data, toy_super_area 7); (toy_sen_masks, toy_super_area 0) ]
  |}.

(** The state of a fresh process looking at a disk. *)
Definition fresh (d : disk) : state := State (mount d) dir_names [].

(** *** The full training split, downloaded and extracted *)

Definition full_image : string := "data/flair_aerial_train/D004/Z1/img/IMG_000001.tif".
Definition full_label : string := "data/flair_labels_train/D004/Z1/msk/MSK_000001.tif".
Definition full_sen_data : string :=
  "data/flair_sen_train/D004/Z1/sen/SEN2_sp_D004_data.npy".
Definition full_sen_masks : string :=
  "data/flair_sen_train/D004/Z1/sen/SEN2_sp_D004_masks.npy".

Definition full_disk : disk :=
  {| disk_files :=
       [ "data/flair-2_centroids_sp_to_patch.json";
         full_image; full_label; full_sen_data; full_sen_masks ];
     disk_dirs :=
       [ "data"; "data/flair_aerial_train"; "data/flair_sen_train";
         "data/flair_labels_train" ];
     disk_glob :=
       [ ("data/flair_aerial_train/**/IMG_*.tif", [full_image]);
         ("data/flair_sen_train/**/SEN2_*_data.npy", [full_sen_data]);
         ("data/flair_sen_train/**/SEN2_*_masks.npy", [full_sen_masks]);
         ("data/flair_labels_train/**/MSK_*.tif", [full_label]) ];
     disk_json :=
       [ ("data/flair-2_centroids_sp_to_patch.json",
          {[ "IMG_000001.tif" := JArr [JInt 20; JInt 17] ]}) ];
     disk_raster :=
       [ (full_image, toy_aerial_raster); (full_label, toy_label_raster) ];
     disk_npy :=
       [ (full_sen_data, toy_super_area 7); (full_sen_masks, toy_super_area 0) ]
  |}.

(** *** An extracted toy directory that holds only the centroid file *)


(** *** A root that holds only the centroid file *)

Definition bare_disk : disk :=
  {| disk_files := [ "data/flair-2_centroids_sp_to_patch.json" ];
     disk_dirs := [ "data" ];
     disk_glob := [];
     disk_json := [ ("data/flair-2_centroids_sp_to_patch.json", ∅) ];
     disk_raster := [];
     disk_npy := [] |}.

(** *** A root with nothing in it, and a toy directory with nothing in it *)



Definition construct (d : disk) (split : string) (bands : list string)
    (download use_toy : bool) : (exn + FLAIR2) * state :=
  __init__ fetch unpack "data" split bands None download false use_toy
           (fresh d).

End Scenario.

(** ** Predicates used in the statements *)

(** Observations leave the file system and the class tables alone and
    add neither a download nor an extraction to the trace. *)
Definition quiet (s s' : state) : Prop :=
  world s' = world s
  ∧ cls_dir_names s' = cls_dir_names s
  ∧ filter is_download (trace s') = filter is_download (trace s)
  ∧ filter is_extract (trace s') = filter is_extract (trace s).

(** Where [_extract] looks for the archive of a directory. *)
Definition archive_path (root dir_name : string) : string :=
  Py.os_path_join root [dir_name +:+ ".zip"].


(** Every directory of the split that is present has a plain string as
    its glob pattern.  With the tables as shipped this says that the
    sentinel directory is absent. *)
Definition present_dirs_have_string_globs
    (w : World) (root : string) (items : list (string * string)) : Prop :=
  ∀ kind dir_name,
    (kind, dir_name) ∈ items →
    isdir w (Py.os_path_join root [dir_name]) = true →
    ∃ pat : string, Py.assoc_get kind globs = Some (PStr pat).



(** [keeps R m]: however [m] ends, normally or with an exception, the
    state it ends in is related by [R] to the state it started in. *)
Definition keeps (R : state → state → Prop) {A} (m : M A) : Prop :=
  ∀ s : state, R s (m s).2.

(** Nothing was downloaded between two states. *)
Definition no_download (s s' : state) : Prop :=
  filter is_download (trace s') = filter is_download (trace s).

(** The class dictionary [dir_names] is the same in two states. *)
Definition same_tables (s s' : state) : Prop :=
  cls_dir_names s' = cls_dir_names s.

(** [m] does not end with the exception [e]. *)
Definition never_raises (e : exn) {A} (m : M A) : Prop :=
  ∀ s : state, (m s).1 ≠ inl e.

(** The same instance with another [transforms] attribute. *)
Definition set_transforms (self : FLAIR2) (t : option (sample → sample))
  : FLAIR2 :=
  Instance (root self) (split self) t (download self) (checksum self)
           (bands self) (use_toy self) (centroids self) (files self).

(** Code-point order on strings, as a relation. *)
Definition str_le (a b : string) : Prop := String.leb a b = true.

(** Extracting some archive does not make another archive disappear. *)
Definition keeps_present_archives
    (unpack_effect : string → World → World) : Prop :=
  ∀ (zipfile archive : string) (w : World),
    glob_matches w archive false ≠ [] →
    glob_matches (unpack_effect zipfile w) archive false ≠ [].

(** What the recursive glob of one directory of the dataset reports. *)
Definition matches (w : World) (root dir_name pat : string) : list string :=
  glob_matches w
    (Py.os_path_join (Py.os_path_join root [dir_name]) ["**"; pat]) true.

(** Position-wise pairing of four path lists, as [_load_files] does it
    with its two [zip]s. *)
Definition pair_up (images sentinels_data sentinels_mask masks : list string)
  : list file_record :=
  map (fun ism => FileRecord ism.1.1 ism.1.2 ism.2)
      (Py.zip3 images
               (map (fun dm => SentinelPaths dm.1 dm.2)
                    (zip sentinels_data sentinels_mask))
               masks).

(** A root whose only raster has one label, the least 64-bit integer. *)
Definition wrapping_label_disk : Scenario.disk :=
  {| Scenario.disk_files := [ "data/wrap.tif" ];
     Scenario.disk_dirs := [ "data" ];
     Scenario.disk_glob := [];
     Scenario.disk_json := [];
     Scenario.disk_raster := [ ("data/wrap.tif", [[[int64_min]]]) ];
     Scenario.disk_npy := [] |}.

(** A root that holds the centroid file and the three archives of the
    training split, none of them extracted yet. *)
Definition archived_disk : Scenario.disk :=
  {| Scenario.disk_files :=
       [ "data/flair-2_centroids_sp_to_patch.json";
         "data/flair_aerial_train.zip"; "data/flair_sen_train.zip";
         "data/flair_labels_train.zip" ];
     Scenario.disk_dirs := [ "data" ];
     Scenario.disk_glob :=
       [ ("data/flair_aerial_train.zip", ["data/flair_aerial_train.zip"]);
         ("data/flair_sen_train.zip", ["data/flair_sen_train.zip"]);
         ("data/flair_labels_train.zip", ["data/flair_labels_train.zip"]) ];
     Scenario.disk_json := [ ("data/flair-2_centroids_sp_to_patch.json", ∅) ];
     Scenario.disk_raster := [];
     Scenario.disk_npy := [] |}.

(** Downloads and extractions, as opposed to observations. *)
Definition is_effect (e : event) : bool := is_download e || is_extract e.

(** The download of a directory's archive into [root] followed by its
    extraction, as events. *)
Definition fetch_and_extract (root d : string) : list event :=
  [ EvDownload (Py.os_path_join url_prefix [d +:+ ".zip"]) root;
    EvExtract (archive_path root d) ].

(** The test of the first loop of [_verify] as a function: the
    directory is absent, or it is present and nothing matches its (string)
    pattern. *)
Definition in_need (w : World) (root : string) (kd : string * string) : bool :=
  if isdir w (Py.os_path_join root [kd.2]) then
    match Py.assoc_get kd.1 globs with
    | Some (PStr pat) =>
        match glob_matches w
                (Py.os_path_join (Py.os_path_join root [kd.2]) ["**"; pat])
                true with
        | [] => true
        | _ :: _ => false
        end
    | _ => false
    end
  else true.

(** The directories of a split that are in need of extraction, in the
    order of the dictionary and with its repetitions. *)
Definition dirs_in_need (w : World) (root : string)
    (items : list (string * string)) : list string :=
  map snd (List.filter (in_need w root) items).

(** Nothing was downloaded or extracted between two states. *)
Definition no_effect (s s' : state) : Prop :=
  filter is_effect (trace s') = filter is_effect (trace s).

(** * Properties *)

(** ** Insertion-ordered dictionaries *)

Section Dicts.
Context {V : Type}.
Implicit Types (d : list (string * V)) (k : string).

Lemma assoc_set_fresh k (v : V) d :
  k ∉ Py.keys d → Py.assoc_set k v d = d ++ [(k, v)].
Proof.
  induction d as [|[k' v'] d IH]; simpl; [done|].
  intros Hk. apply not_elem_of_cons in Hk as [Hne Hk].
  destruct (String.eqb_spec k k') as [->|_]; [done|].
  by rewrite IH.
Qed.

Lemma fold_assoc_set_nodup d acc :
  NoDup (Py.keys (acc ++ d)) →
  fold_left (fun a kv => Py.assoc_set kv.1 kv.2 a) d acc = acc ++ d.
Proof.
  revert acc. induction d as [|[k v] d IH]; intros acc Hnd; simpl.
  - by rewrite app_nil_r.
  - rewrite assoc_set_fresh.
    + rewrite IH; rewrite <- app_assoc; done.
    + unfold Py.keys in *. rewrite fmap_app in Hnd.
      apply NoDup_app in Hnd as (_ & Hdisj & _).
      intros Hin. apply (Hdisj k Hin). simpl. left.
Qed.

(** [dict(items)] of items with distinct keys keeps them as they are. *)
Lemma dict_of_items_nodup d : NoDup (Py.keys d) → Py.dict_of_items d = d.
Proof. intros Hnd. unfold Py.dict_of_items. by rewrite fold_assoc_set_nodup. Qed.

Lemma keys_filter_nodup (P : string * V → Prop) `{!∀ x, Decision (P x)} d :
  NoDup (Py.keys d) → NoDup (Py.keys (filter P d)).
Proof.
  unfold Py.keys. induction d as [|kv d IH]; simpl; [done|].
  rewrite NoDup_cons. intros [Hk Hnd].
  rewrite filter_cons. case_decide; [|by apply IH].
  simpl. apply NoDup_cons. split; [|by apply IH].
  intros Hin. apply Hk.
  apply list_elem_of_fmap in Hin as (x & -> & Hx).
  apply list_elem_of_filter in Hx as [_ Hx].
  apply list_elem_of_fmap. eauto.
Qed.

Lemma assoc_get_None k d : Py.assoc_get k d = None ↔ k ∉ Py.keys d.
Proof.
  induction d as [|[k' v] d IH]; simpl.
  - split; [intros _; apply not_elem_of_nil | done].
  - destruct (String.eqb_spec k k') as [->|Hne].
    + split; [done|]. intros []. left.
    + rewrite IH, not_elem_of_cons. tauto.
Qed.
End Dicts.

Lemma statistics_keys_nodup sp table :
  Py.assoc_get sp statistics = Some table → NoDup (Py.keys table).
Proof.
  unfold statistics. simpl.
  destruct (String.eqb sp "train"); [|done].
  intros [= <-]. unfold Py.keys. simpl.
  apply (bool_decide_unpack _). by vm_compute.
Qed.

(** ** Band statistics *)

Lemma per_band_statistics_found sp bands table :
  Py.assoc_get sp statistics = Some table →
  let selected := Py.values (filter (fun kv => kv.1 ∈ bands) table) in
  per_band_statistics sp bands =
    inr (map stat_min selected, map stat_max selected,
         map stat_mean selected, map stat_stdv selected).
Proof.
  intros Hsp. unfold per_band_statistics. rewrite Hsp. simpl.
  rewrite dict_of_items_nodup; [done|].
  apply keys_filter_nodup. by eapply statistics_keys_nodup.
Qed.

Lemma selected_count (bands : list string) (table : list (string * band_stat)) :
  NoDup (Py.keys table) →
  length (Py.values (filter (fun kv => kv.1 ∈ bands) table)) =
  length (filter (fun b => b ∈ Py.keys table) (remove_dups bands)).
Proof.
  intros Hnd.
  transitivity (length (Py.keys (filter (fun kv => kv.1 ∈ bands) table))).
  { unfold Py.values, Py.keys. by rewrite !length_map. }
  apply Permutation_length, NoDup_Permutation.
  - by apply keys_filter_nodup.
  - apply NoDup_filter, NoDup_remove_dups.
  - intros b. unfold Py.keys.
    rewrite list_elem_of_filter, elem_of_remove_dups, !list_elem_of_fmap.
    split.
    + intros (kv & -> & Hkv). apply list_elem_of_filter in Hkv as [Hb Hkv].
      split; [eauto | done].
    + intros [(kv & -> & Hkv) Hb]. exists kv. split; [done|].
      by apply list_elem_of_filter.
Qed.

Lemma remove_dups_length (l : list string) :
  (length (remove_dups l) ≤ length l)%nat.
Proof.
  induction l as [|b l IH]; simpl; [done|].
  case_decide; simpl; lia.
Qed.

(** C3, as stated, fails: for the request [B02, B01] the lists come back
    in the order B01, B02 of the reference table (B01 mean 113.775...
    first), which is not the request's order. *)
Lemma per_band_statistics_not_request_order :
  ∃ r : band_statistics,
    per_band_statistics "train" ["B02"; "B01"] = inr r
    ∧ r.1.2 = [113.77526983072; 118.08112962721]%Q
    ∧ statistics_in_request_order "train" ["B02"; "B01"] ≠ Some r.
Proof.
  eexists. split; [by vm_compute|]. split; [by vm_compute|].
  vm_compute. intros [=].
Qed.

(** C3 (amended): for a split with recorded statistics,
    [per_band_statistics] returns four parallel lists holding the entries
    of the reference table whose band is among the requested ones, in the
    order of the table (B01, B02, ...); the order in which the bands are
    requested has no influence on the result. *)
Theorem per_band_statistics_table_order
    (sp : string) (bands : list string) (table : list (string * band_stat)) :
  Py.assoc_get sp statistics = Some table →
  let selected := Py.values (filter (fun kv => kv.1 ∈ bands) table) in
  per_band_statistics sp bands =
    inr (map stat_min selected, map stat_max selected,
         map stat_mean selected, map stat_stdv selected)
  ∧ ∀ bands' : list string,
      bands' ≡ₚ bands →
      per_band_statistics sp bands' = per_band_statistics sp bands.
Proof.
  intros Hsp selected. split; [by apply per_band_statistics_found|].
  intros bands' Hperm.
  rewrite !(per_band_statistics_found _ _ table Hsp). simpl.
  assert (filter (fun kv : string * band_stat => kv.1 ∈ bands') table =
          filter (fun kv : string * band_stat => kv.1 ∈ bands) table) as ->;
    [|done].
  apply list_filter_iff. intros kv. by rewrite Hperm.
Qed.

Lemma per_band_statistics_table_order_witness :
  per_band_statistics "train" ["B02"; "B01"] =
    inr ([0.0; 0.0], [255.0; 255.0],
         [113.77526983072; 118.08112962721],
         [1.4678962001526; 1.2889349378677])%Q
  ∧ per_band_statistics "train" ["B01"; "B02"] =
    per_band_statistics "train" ["B02"; "B01"].
Proof.
  destruct (per_band_statistics_table_order "train" ["B02"; "B01"] _ eq_refl)
    as [Hval Hperm].
  split; [exact Hval|].
  apply Hperm. apply perm_swap.
Defined.

(** C10: [per_band_statistics] raises, and then its assertion error,
    exactly when the split has no recorded statistics.  Otherwise it
    returns four lists whose common length is the number of distinct
    requested bands that occur in the table: a requested band that the
    table lacks is dropped without an error, so the lists can be strictly
    shorter than the request. *)
Theorem per_band_statistics_errors (sp : string) (bands : list string) :
  ((∃ e, per_band_statistics sp bands = inl e) ↔ sp ∉ Py.keys statistics)
  ∧ match Py.assoc_get sp statistics with
    | None => per_band_statistics sp bands = inl AssertionError
    | Some table =>
        ∃ mins maxs means stdvs,
          per_band_statistics sp bands = inr (mins, maxs, means, stdvs)
          ∧ let n := length (filter (fun b => b ∈ Py.keys table)
                                    (remove_dups bands)) in
            length mins = n ∧ length maxs = n
            ∧ length means = n ∧ length stdvs = n
            ∧ (n ≤ length bands)%nat
    end
  ∧ ∃ (mins maxs means stdvs : list Q),
      per_band_statistics "train" ["B01"; "B09"] = inr (mins, maxs, means, stdvs)
      ∧ (length mins < length ["B01"; "B09"])%nat
      ∧ length maxs = length mins ∧ length means = length mins
      ∧ length stdvs = length mins.
Proof.
  split; [|split].
  - rewrite <- assoc_get_None. unfold per_band_statistics.
    destruct (Py.assoc_get sp statistics) as [table|]; split.
    + intros [e [=]].
    + intros [=].
    + done.
    + intros _. by exists AssertionError.
  - destruct (Py.assoc_get sp statistics) as [table|] eqn:Hsp.
    + do 4 eexists. split; [by apply per_band_statistics_found|].
      simpl. rewrite !length_map.
      rewrite selected_count by (by eapply statistics_keys_nodup).
      repeat (split; [done|]).
      etransitivity; [apply length_filter|]. apply remove_dups_length.
    + unfold per_band_statistics. by rewrite Hsp.
  - do 4 eexists. split; [by vm_compute|]. simpl. repeat split; lia.
Qed.

(** ** The crop window *)

(** C4: for a centroid [(y, x)] and the super-patch size 40 the window is
    [x - 5, x + 10) on the first axis and [y - 5, y + 10) on the second
    (the first range from [x], the second from [y]), so it spans 15 x 15
    indices whatever the centroid. *)
Theorem crop_window_swapped_and_constant (A : Type) (data : A) (y x : Z) :
  let eighth := (super_patch_size / 8)%Z in
  let quarter := (super_patch_size / 4)%Z in
  ∃ rowRange colRange : slice,
    _crop_super_patch data (JArr [JInt y; JInt x])
      = inr (data, (rowRange, colRange))
    ∧ rowRange = Slice (x - eighth) (x + quarter)
    ∧ colRange = Slice (y - eighth) (y + quarter)
    ∧ slice_span rowRange = (quarter + eighth)%Z
    ∧ slice_span colRange = (quarter + eighth)%Z
    ∧ (quarter + eighth)%Z = 15%Z.
Proof.
  intros eighth quarter. do 2 eexists. split; [reflexivity|].
  do 2 (split; [reflexivity|]).
  unfold slice_span, eighth, quarter, super_patch_size. simpl.
  change (40 / 8)%Z with 5%Z. change (40 / 4)%Z with 10%Z.
  repeat split; lia.
Qed.

(** A centroid entry with float coordinates gives float bounds, computed
    in binary64; a two-character string is unpacked and then fails at
    the subtraction. *)
Example crop_window_of_other_entries :
  _crop_super_patch tt (JArr [JFloat 20.5; JFloat 17.5])
    = inr (tt, (Slice (NFloat 12.5) (NFloat 27.5),
                Slice (NFloat 15.5) (NFloat 30.5)))
  ∧ _crop_super_patch tt (JStr "ab") = inl TypeError
  ∧ _crop_super_patch tt (JStr "abc") = inl ValueError
  ∧ _crop_super_patch tt (JInt 7) = inl TypeError
  ∧ _crop_super_patch tt (JArr [JBool true; JInt 17])
    = inr (tt, (Slice 12 27, Slice (-4) 11)).
Proof. repeat split; by vm_compute. Qed.

(** ** The label remap *)

Lemma wrap64_small (z : Z) :
  (int64_min ≤ z ≤ int64_max)%Z → wrap64 z = z.
Proof.
  unfold int64_min, int64_max, wrap64. intros Hz.
  rewrite Z.mod_small; lia.
Qed.

Lemma remap_label_range (v : Z) : (0 ≤ remap_label v ≤ 12)%Z.
Proof.
  unfold remap_label, clamp. change (Z.of_nat (length classes) - 1)%Z with 12%Z.
  lia.
Qed.

Lemma remap_mask_range (t : tensor2 Z) (row : list Z) (v : Z) :
  row ∈ remap_mask t → v ∈ row → (0 ≤ v ≤ 12)%Z.
Proof.
  unfold remap_mask. intros Hrow Hv.
  apply list_elem_of_fmap in Hrow as (raw & -> & _).
  apply list_elem_of_fmap in Hv as (w & -> & _).
  apply remap_label_range.
Qed.

Lemma remap_label_cases (v : Z) :
  (int64_min ≤ v ≤ int64_max)%Z →
  remap_label v =
    if (v =? int64_min)%Z then 12%Z
    else if (v - 1 <? 0)%Z then 0%Z
    else if (12 <? v - 1)%Z then 12%Z
    else (v - 1)%Z.
Proof.
  intros Hv. unfold remap_label, clamp.
  change (Z.of_nat (length classes) - 1)%Z with 12%Z.
  destruct (Z.eqb_spec v int64_min) as [->|Hne]; [by vm_compute|].
  rewrite wrap64_small by (unfold int64_min, int64_max in *; lia).
  destruct (Z.ltb_spec (v - 1) 0); [lia|].
  destruct (Z.ltb_spec 12 (v - 1)); lia.
Qed.

(** C5, as stated, fails: the label tensor holds 64-bit integers, and for
    the least of them, -2^63, the subtraction of 1 wraps around to
    2^63 - 1, so the loader returns 12 where clamp(v - 1, 0, 12) computed
    on the integers is 0. *)
Lemma load_target_wraps_the_least_label :
  ∃ mask : tensor2 Z,
    (_load_target
       (Instance "data" "train" None false false all_bands false ∅ [])
       "data/wrap.tif" (Scenario.fresh wrapping_label_disk)).1 = inr mask
    ∧ mask = [[12]]%Z
    ∧ map (map (fun v => Z.min (Z.max (v - 1) 0) 12)) [[int64_min]] = [[0]]%Z
    ∧ mask ≠ map (map (fun v => Z.min (Z.max (v - 1) 0) 12)) [[int64_min]].
Proof.
  exists [[12]]%Z. split; [by vm_compute|]. split; [done|].
  split; [by vm_compute|]. vm_compute. intros [=].
Qed.

(** C5 (amended): the mask loader maps every raw label [v] of the first
    raster band, a 64-bit integer, element by element: to 0 when
    [v - 1 < 0], to 12 when [v - 1 > 12], to [v - 1] otherwise, that is
    to clamp(v - 1, 0, 12) with 13 classes, except for the least 64-bit
    integer, where [v - 1] wraps around and the result is 12.  Every
    value of the returned mask lies in [0, 12]; raw 0 and raw 1 both give
    0 and raw 14 gives 12. *)
Theorem load_target_remaps_labels
    (self : FLAIR2) (path : string) (st : state)
    (band1 : tensor2 Z) (others : tensor3 Z) :
  raster_content (world st) path = Some (band1 :: others) →
  (∀ row v, row ∈ band1 → v ∈ row → (int64_min ≤ v ≤ int64_max)%Z) →
  ∃ mask : tensor2 Z,
    (_load_target self path st).1 = inr mask
    ∧ mask = map (map (fun v =>
                         if (v =? - 2 ^ 63)%Z then 12%Z
                         else if (v - 1 <? 0)%Z then 0%Z
                         else if (12 <? v - 1)%Z then 12%Z
                         else (v - 1)%Z))
                 band1
    ∧ length classes = 13%nat
    ∧ (∀ row v, row ∈ mask → v ∈ row → (0 ≤ v ≤ 12)%Z)
    ∧ (∀ (others' : tensor3 Z) (st' : state),
         raster_content (world st') path = Some ([[0; 1; 14]%Z] :: others') →
         (_load_target self path st').1 = inr [[0; 0; 12]%Z]).
Proof.
  intros Hfile Hrange. exists (remap_mask band1).
  split; [|split; [|split; [done|split]]].
  - unfold _load_target, bind, rasterio_read. rewrite Hfile. done.
  - unfold remap_mask. apply map_ext_in. intros row Hrow.
    apply map_ext_in. intros v Hv.
    apply list_elem_of_In in Hrow, Hv.
    apply (remap_label_cases v), (Hrange row v Hrow Hv).
  - apply remap_mask_range.
  - intros others' st' Hfile'.
    unfold _load_target, bind, rasterio_read. by rewrite Hfile'.
Qed.

Lemma load_target_remaps_labels_witness :
  ∃ mask : tensor2 Z,
    (_load_target
       (Instance "data" "train" None false false all_bands true ∅ [])
       Scenario.toy_label (Scenario.fresh Scenario.toy_disk)).1 = inr mask
    ∧ mask = [[0; 0]; [12; 12]]%Z.
Proof.
  destruct (load_target_remaps_labels
              (Instance "data" "train" None false false all_bands true ∅ [])
              Scenario.toy_label (Scenario.fresh Scenario.toy_disk)
              [[0; 1]; [14; 19]]%Z [])
    as (mask & Hrun & Hmask & _).
  - reflexivity.
  - intros row v Hrow Hv.
    unfold int64_min, int64_max.
    repeat (apply elem_of_cons in Hrow as [->|Hrow]);
      [..|by apply elem_of_nil in Hrow];
      repeat (apply elem_of_cons in Hv as [->|Hv]);
      try (by apply elem_of_nil in Hv); lia.
  - exists mask. split; [exact Hrun | exact Hmask].
Defined.

(** ** Construction *)

(** C8: with a split other than 'train' and 'test' construction fails at
    once with the assertion's error; the state is the one it started in:
    nothing was looked up on the file system, downloaded or extracted. *)
Theorem init_rejects_unsupported_split
    (fetch_effect : string → string → World → World)
    (unpack_effect : string → World → World)
    (root sp : string) (bands : list string)
    (transforms : option (sample → sample))
    (download checksum use_toy : bool) (st : state) :
  sp ∉ splits →
  __init__ fetch_effect unpack_effect root sp bands transforms
           download checksum use_toy st
  = (inl AssertionError, st).
Proof.
  intros Hsp. unfold __init__. by rewrite bool_decide_false.
Qed.

Lemma init_rejects_unsupported_split_witness :
  Scenario.construct Scenario.full_disk "val" all_bands true false
  = (inl AssertionError, Scenario.fresh Scenario.full_disk).
Proof.
  apply init_rejects_unsupported_split.
  unfold splits. intros Hin.
  repeat (apply elem_of_cons in Hin as [[=]|Hin]).
  by apply elem_of_nil in Hin.
Defined.

(** ** Sample access *)

Lemma spatial_extent_to_float4 (t : tensor4 Z) :
  spatial_extent (to_float4 t) = spatial_extent t.
Proof.
  destruct t as [|[|img chans] dates]; simpl; [done..|].
  rewrite length_map. by destruct img; simpl; rewrite ?length_map.
Qed.

(** C1, as stated, fails: on the extracted toy dataset the first sample's
    satellite arrays come back with the 40 x 40 extent of the stored
    super-area, not with the 15 x 15 extent that applying the window
    would give. *)
Lemma sentinel_arrays_not_cropped :
  ∃ (self : FLAIR2) (st : state) (smp : sample)
    (data qmask : tensor4 Q) (window : slice * slice),
    Scenario.construct Scenario.toy_disk "train" all_bands false true
      = (inr self, st)
    ∧ (__getitem__ self 0 st).1 = inr smp
    ∧ sample_sentinel smp = ([data; qmask], window)
    ∧ spatial_extent data = (40, 40)%nat
    ∧ spatial_extent qmask = (40, 40)%nat
    ∧ spatial_extent (applyCrop data window) = (15, 15)%nat
    ∧ data ≠ applyCrop data window
    ∧ qmask ≠ applyCrop qmask window.
Proof.
  do 6 eexists. split; [vm_compute; reflexivity|].
  split; [vm_compute; reflexivity|].
  split; [reflexivity|].
  do 3 (split; [by vm_compute|]).
  split; intros Heq; apply (f_equal spatial_extent) in Heq;
    vm_compute in Heq; discriminate.
Qed.

(** C1 (amended): loading the satellite pair returns the two stored
    arrays, cast to float and otherwise unchanged, so with the extent of
    the stored super-area, together with the crop window computed from
    the sample's centroid [(y, x)], which is
    [x - 5, x + 10) x [y - 5, y + 10), that is 15 x 15; the window is
    returned next to the arrays and is not applied to them. *)
Theorem load_sentinel_returns_arrays_and_window
    (self : FLAIR2) (paths : sentinel_paths) (aerial_path : string)
    (st : state) (data qmask : tensor4 Z) (y x : Z) :
  npy_content (world st) (paths_data paths) = Some data →
  npy_content (world st) (paths_snow_cloud_mask paths) = Some qmask →
  centroids self !! Py.os_path_basename aerial_path
    = Some (JArr [JInt y; JInt x]) →
  let window := (Slice (x - 5) (x + 10), Slice (y - 5) (y + 10)) in
  (_load_sentinel self paths aerial_path st).1
    = inr ([to_float4 data; to_float4 qmask], window)
  ∧ spatial_extent (to_float4 data) = spatial_extent data
  ∧ spatial_extent (to_float4 qmask) = spatial_extent qmask
  ∧ slice_span window.1 = 15%Z ∧ slice_span window.2 = 15%Z.
Proof.
  intros Hdata Hmask Hcen window.
  split; [|split; [apply spatial_extent_to_float4|
           split; [apply spatial_extent_to_float4|]]].
  - unfold _load_sentinel, bind, np_load. rewrite Hdata. simpl.
    rewrite Hmask, Hcen. simpl. reflexivity.
  - unfold slice_span, window. simpl. lia.
Qed.

Lemma load_sentinel_returns_arrays_and_window_witness :
  (_load_sentinel
     (Instance Scenario.toy_root "train" None false false all_bands true
               {[ "IMG_000001.tif" := JArr [JInt 20; JInt 17] ]} [])
     (SentinelPaths Scenario.toy_sen_data Scenario.toy_sen_masks)
     Scenario.toy_image (Scenario.fresh Scenario.toy_disk)).1
  = inr ([to_float4 (Scenario.toy_super_area 7);
          to_float4 (Scenario.toy_super_area 0)],
         (Slice 12 27, Slice 15 30)).
Proof.
  exact (proj1 (load_sentinel_returns_arrays_and_window
                  (Instance Scenario.toy_root "train" None false false
                            all_bands true
                            {[ "IMG_000001.tif" := JArr [JInt 20; JInt 17] ]} [])
                  (SentinelPaths Scenario.toy_sen_data Scenario.toy_sen_masks)
                  Scenario.toy_image (Scenario.fresh Scenario.toy_disk)
                  (Scenario.toy_super_area 7) (Scenario.toy_super_area 0)
                  20 17 eq_refl eq_refl eq_refl)).
Defined.

Lemma replace_last_length {A} (l : list A) (x : A) :
  l ≠ [] → length (removelast l ++ [x]) = length l.
Proof.
  induction l as [|a l IH]; [done|]. intros _.
  destruct l as [|b l]; [done|].
  change (removelast (a :: b :: l)) with (a :: removelast (b :: l)).
  simpl. f_equal. by apply IH.
Qed.

(** The image has the channels of the raster file, whatever bands were
    requested. *)
Lemma load_image_keeps_file_channels
    (self : FLAIR2) (path : string) (st : state) (array : tensor3 Z) :
  raster_content (world st) path = Some array →
  array ≠ [] →
  ∃ tensor : tensor3 Q,
    (_load_image self path st).1 = inr tensor
    ∧ num_channels tensor = length array.
Proof.
  intros Hfile Hne. unfold _load_image, bind, rasterio_read. rewrite Hfile.
  simpl. case_bool_decide; [|eexists; split; [done|]].
  - unfold rescale_last.
    destruct (last (to_float3 array)) as [height|] eqn:Hlast.
    + eexists. split; [done|]. unfold num_channels.
      rewrite replace_last_length; unfold to_float3.
      * by rewrite length_map.
      * by destruct array.
    + apply last_None in Hlast. unfold to_float3 in Hlast.
      by destruct array.
  - unfold num_channels, to_float3. by rewrite length_map.
Qed.

(** C2 (the code departs from it): a dataset built for the three bands
    B01, B02, B03 over a five-channel aerial raster has one sample, and
    that sample's image has five channels while [get_num_bands] is 3. *)
Theorem getitem_image_has_all_file_channels :
  ∃ (self : FLAIR2) (st : state) (smp : sample),
    Scenario.construct Scenario.toy_disk "train" ["B01"; "B02"; "B03"] false true
      = (inr self, st)
    ∧ __len__ self = 1%nat
    ∧ (__getitem__ self 0 st).1 = inr smp
    ∧ get_num_bands self = 3%nat
    ∧ num_channels (sample_image smp) = 5%nat.
Proof.
  do 3 eexists. split; [vm_compute; reflexivity|].
  split; [reflexivity|].
  split; [vm_compute; reflexivity|].
  split; reflexivity.
Qed.

(** ** Shared class state *)

(** C6 (the code departs from it): building one toy-mode instance
    rewrites the class dictionary [dir_names], so every other instance
    sees toy directory names from then on; a second toy-mode instance
    built in the same process renames the names once more and finds no
    file. *)
Theorem toy_construction_rewrites_shared_dir_names :
  ∃ (toy : FLAIR2) (s1 : state) (toy' : FLAIR2) (s2 : state),
    Scenario.construct Scenario.toy_disk "train" all_bands false true
      = (inr toy, s1)
    ∧ __init__ Scenario.fetch Scenario.unpack
               "data" "train" all_bands None false false true s1
      = (inr toy', s2)
    ∧ (∀ other : FLAIR2,
        observed_dir_names other (Scenario.fresh Scenario.toy_disk) = dir_names
        ∧ observed_dir_names other s1 ≠ dir_names
        ∧ Py.assoc_get "train" (observed_dir_names other s1)
          = Some [ ("images", "flair_2_toy_aerial_train");
                   ("sentinels", "flair_2_toy_sen_train");
                   ("masks", "flair_2_toy_labels_train") ]
        ∧ Py.assoc_get "train" (observed_dir_names other s2)
          = Some [ ("images", "flair_2_toy_2_toy_aerial_train");
                   ("sentinels", "flair_2_toy_2_toy_sen_train");
                   ("masks", "flair_2_toy_2_toy_labels_train") ])
    ∧ __len__ toy = 1%nat
    ∧ __len__ toy' = 0%nat.
Proof.
  do 4 eexists. split; [vm_compute; reflexivity|].
  split; [vm_compute; reflexivity|].
  split; [|split; reflexivity].
  intros other. split; [reflexivity|].
  split; [|split; reflexivity].
  vm_compute. intros [=].
Qed.

(** ** Verification *)

(** One step of the monad at a time. *)
Section Steps.
Context {A B : Type}.
Implicit Types (k : A → M B) (s : state).

Lemma bind_ret (a : A) k s : bind (ret a) k s = k a s.
Proof. reflexivity. Qed.

Lemma bind_raise (e : exn) k s : bind (raise e) k s = (inl e, s).
Proof. reflexivity. Qed.

End Steps.

Section Primitives.
Context {B : Type}.
Implicit Types (s : state) (p : string).

Lemma bind_isfile p (k : bool → M B) s :
  bind (os_path_isfile p) k s
  = k (isfile (world s) p) (record_event (EvIsFile p) s).
Proof. reflexivity. Qed.

Lemma bind_isdir p (k : bool → M B) s :
  bind (os_path_isdir p) k s
  = k (isdir (world s) p) (record_event (EvIsDir p) s).
Proof. reflexivity. Qed.

Lemma bind_glob p r (k : list string → M B) s :
  bind (glob_glob p r) k s
  = k (glob_matches (world s) p r) (record_event (EvGlob p) s).
Proof. reflexivity. Qed.

Lemma bind_dir_names_getitem key (k : list (string * string) → M B) s :
  bind (dir_names_getitem key) k s
  = match Py.assoc_get key (cls_dir_names s) with
    | Some d => k d s
    | None => (inl KeyError, s)
    end.
Proof.
  unfold bind, dir_names_getitem.
  by destruct (Py.assoc_get key (cls_dir_names s)).
Qed.
End Primitives.

Lemma quiet_refl s : quiet s s.
Proof. by repeat split. Qed.

Lemma quiet_trans s1 s2 s3 : quiet s1 s2 → quiet s2 s3 → quiet s1 s3.
Proof.
  intros (Hw & Hc & Hd & He) (Hw' & Hc' & Hd' & He').
  repeat split; congruence.
Qed.

Lemma quiet_record_event e s :
  is_download e = false → is_extract e = false → quiet s (record_event e s).
Proof.
  intros Hd He. repeat split; simpl; rewrite filter_app; simpl.
  - rewrite filter_cons, Hd. simpl. by rewrite filter_nil, app_nil_r.
  - rewrite filter_cons, He. simpl. by rewrite filter_nil, app_nil_r.
Qed.

Lemma quiet_step e s s' :
  is_download e = false → is_extract e = false →
  quiet (record_event e s) s' → quiet s s'.
Proof.
  intros Hd He. apply quiet_trans. by apply quiet_record_event.
Qed.

Lemma bind_fails {A B} (m : M A) (k : A → M B) (s : state) (e : exn) :
  (m s).1 = inl e → bind m k s = (inl e, (m s).2).
Proof. unfold bind. destruct (m s) as [[e'|a] s']; simpl; congruence. Qed.

Lemma bind_returns {A B} (m : M A) (k : A → M B) (s s' : state) (a : A) :
  m s = (inr a, s') → bind m k s = k a s'.
Proof. unfold bind. by intros ->. Qed.

Section Scan.
Variable self : FLAIR2.

Lemma scan_dirs_quiet items : ∀ acc st,
  quiet st (scan_dirs self items acc st).2.
Proof.
  induction items as [|[k d] items IH]; intros acc st; [apply quiet_refl|].
  cbn [scan_dirs]. rewrite bind_isdir.
  apply (quiet_step (EvIsDir (Py.os_path_join (root self) [d]))); [done..|].
  destruct (isdir _ _); cbn [negb]; [|apply IH].
  unfold globs_getitem.
  destruct (Py.assoc_get k globs) as [[pat|dm]|]; cbn [of_option];
    [| rewrite bind_ret; cbn [os_path_join_val]; rewrite bind_raise;
       apply quiet_refl
     | rewrite bind_raise; apply quiet_refl].
  rewrite bind_ret. cbn [os_path_join_val]. rewrite bind_ret, bind_glob.
  eapply quiet_step; [| |destruct (glob_matches _ _ _); apply IH]; done.
Qed.

(** The scan stops with [TypeError] at a present directory whose glob
    pattern is a dictionary (no earlier entry lacking a pattern). *)
Lemma scan_dirs_type_error items : ∀ acc st,
  (∀ k d, (k, d) ∈ items → is_Some (Py.assoc_get k globs)) →
  (∃ k d dm, (k, d) ∈ items
             ∧ Py.assoc_get k globs = Some (PDict dm)
             ∧ isdir (world st) (Py.os_path_join (root self) [d]) = true) →
  (scan_dirs self items acc st).1 = inl TypeError.
Proof.
  induction items as [|[k d] items IH]; intros acc st Hkeys Hbad.
  { destruct Hbad as (? & ? & ? & Hin & _). by apply elem_of_nil in Hin. }
  assert (∀ st', world st' = world st →
            (∃ k' d' dm, (k', d') ∈ items
               ∧ Py.assoc_get k' globs = Some (PDict dm)
               ∧ isdir (world st) (Py.os_path_join (root self) [d']) = true) →
            ∀ acc', (scan_dirs self items acc' st').1 = inl TypeError)
    as Hrest.
  { intros st' Hw Hex acc'. apply IH.
    - intros k' d' Hin. apply (Hkeys k' d'). by right.
    - by rewrite Hw. }
  cbn [scan_dirs]. rewrite bind_isdir.
  destruct (isdir (world st) (Py.os_path_join (root self) [d])) eqn:Hd;
    cbn [negb].
  - destruct (Hkeys k d) as [v Hv]; [left|].
    unfold globs_getitem. rewrite Hv. cbn [of_option]. rewrite bind_ret.
    destruct v as [pat|dm]; cbn [os_path_join_val]; [|done].
    rewrite bind_ret, bind_glob.
    assert (∃ k' d' dm, (k', d') ∈ items
              ∧ Py.assoc_get k' globs = Some (PDict dm)
              ∧ isdir (world st) (Py.os_path_join (root self) [d']) = true)
      as Hex.
    { destruct Hbad as (k' & d' & dm & Hin & Hdm & Hdir).
      apply elem_of_cons in Hin as [[= -> ->]|Hin]; [congruence|eauto 6]. }
    destruct (glob_matches _ _ _); by apply Hrest.
  - apply Hrest; [done|].
    destruct Hbad as (k' & d' & dm & Hin & Hdm & Hdir).
    apply elem_of_cons in Hin as [[= -> ->]|Hin]; [congruence|eauto 6].
Qed.
End Scan.

(** With the class tables as shipped, verification outside toy mode
    raises [TypeError] as soon as the centroid file and the sentinel
    directory are both present: the sentinel entry of [globs] is a
    dictionary and cannot be joined to a path.  Nothing is downloaded or
    extracted on the way. *)
Lemma verify_raises_when_sentinel_dir_present
    (fetch_effect : string → string → World → World)
    (unpack_effect : string → World → World)
    (self : FLAIR2) (st : state) :
  use_toy self = false →
  split self = "train" →
  cls_dir_names st = dir_names →
  isfile (world st)
         (Py.os_path_join (root self) [centroids_file +:+ ".json"]) = true →
  isdir (world st) (Py.os_path_join (root self) ["flair_sen_train"]) = true →
  (_verify fetch_effect unpack_effect self st).1 = inl TypeError
  ∧ quiet st (_verify fetch_effect unpack_effect self st).2.
Proof.
  intros Htoy Hsplit Hcls Hjson Hsen.
  unfold _verify. rewrite Htoy, Hsplit.
  rewrite bind_isfile, Hjson. cbn [negb].
  rewrite bind_ret, bind_dir_names_getitem. cbn [cls_dir_names record_event].
  rewrite Hcls. cbn [dir_names Py.assoc_get String.eqb Ascii.eqb Bool.eqb].
  set (st1 := record_event _ st).
  assert (quiet st st1) as Hq by (by apply quiet_record_event).
  set (items := [("images", _); _; _]).
  assert ((scan_dirs self items [] st1).1 = inl TypeError) as Hscan.
  { apply scan_dirs_type_error.
    - intros k d Hin. subst items.
      repeat (apply elem_of_cons in Hin as [[= -> ->]|Hin]; [by eexists|]).
      by apply elem_of_nil in Hin.
    - exists "sentinels", "flair_sen_train". eexists. split; [|split].
      + subst items. right. left.
      + reflexivity.
      + exact Hsen. }
  rewrite (bind_fails _ _ _ _ Hscan). split; [done|].
  eapply quiet_trans; [exact Hq|]. apply scan_dirs_quiet.
Qed.

(** C7 (the code departs from it).  Outside toy mode, with the centroid
    file, the three directories and their files all in place,
    verification does not return: it raises [TypeError], the first time
    and every time after.  In toy mode with downloading enabled, a first
    verification over the extracted toy directory succeeds without any
    download, and a second one right after it downloads and extracts the
    toy archive again, rebinds [root] once more and rewrites [dir_names]
    once more. *)
Theorem verify_twice_is_not_a_no_op
    (fetch_effect : string → string → World → World)
    (unpack_effect : string → World → World) :
  let plain := Instance "data" "train" None false false all_bands false ∅ [] in
  let toy := Instance "data" "train" None true false all_bands true ∅ [] in
  let verify := _verify fetch_effect unpack_effect in
  let s0 := Scenario.fresh Scenario.full_disk in
  let t0 := Scenario.fresh Scenario.toy_disk in
  (verify plain s0).1 = inl TypeError
  ∧ (verify plain (verify plain s0).2).1 = inl TypeError
  ∧ ∃ (toy1 : FLAIR2) (t1 : state) (toy2 : FLAIR2) (t2 : state),
      verify toy t0 = (inr toy1, t1)
      ∧ filter is_download (trace t1) = []
      ∧ filter is_extract (trace t1) = []
      ∧ verify toy1 t1 = (inr toy2, t2)
      ∧ length (filter is_download (trace t2)) = 1%nat
      ∧ length (filter is_extract (trace t2)) = 1%nat
      ∧ root toy1 = "data/flair_2_toy_dataset"
      ∧ root toy2 = "data/flair_2_toy_dataset/flair_2_toy_dataset"
      ∧ cls_dir_names t2 ≠ cls_dir_names t1.
Proof.
  intros plain toy verify s0 t0.
  split; [by vm_compute|]. split; [by vm_compute|].
  do 4 eexists. split; [vm_compute; reflexivity|].
  do 2 (split; [reflexivity|]).
  split; [vm_compute; reflexivity|].
  do 4 (split; [reflexivity|]).
  vm_compute. intros [=].
Qed.

(** ** Construction without the data *)

Lemma list_remove_Some (c : string) (l : list string) :
  c ∈ l → ∃ l', Py.list_remove c l = Some l' ∧ l ≡ₚ c :: l'.
Proof.
  induction l as [|y l IH]; intros Hin; [by apply elem_of_nil in Hin|].
  cbn [Py.list_remove]. destruct (String.eqb_spec c y) as [->|Hne].
  - by exists l.
  - apply elem_of_cons in Hin as [->|Hin]; [done|].
    destruct (IH Hin) as (l' & -> & Hperm). exists (y :: l').
    split; [done|]. rewrite Hperm. apply perm_swap.
Qed.

Section Recovery.
Variable fetch_effect : string → string → World → World.
Variable unpack_effect : string → World → World.
Variable self : FLAIR2.

Lemma bind_extract {B} (file_path : string) (k : unit → M B) (s : state) :
  bind (_extract unpack_effect self file_path) k s
  = k tt (State (unpack_effect (archive_path (root self) file_path) (world s))
                (cls_dir_names s)
                (trace s ++ [EvExtract (archive_path (root self) file_path)])).
Proof. reflexivity. Qed.




End Recovery.




(** * Further properties of the loader *)

(** ** State relations along a computation *)

Lemma keeps_ret (R : state → state → Prop) `{!Reflexive R} {A} (a : A) :
  keeps R (ret a).
Proof. intros s. simpl. reflexivity. Qed.

Lemma keeps_raise (R : state → state → Prop) `{!Reflexive R} {A} (e : exn) :
  keeps R (raise (A := A) e).
Proof. intros s. simpl. reflexivity. Qed.

Lemma keeps_of_option (R : state → state → Prop) `{!Reflexive R}
    {A} (e : exn) (o : option A) :
  keeps R (of_option e o).
Proof. destruct o; [by apply keeps_ret | by apply keeps_raise]. Qed.

Lemma keeps_bind (R : state → state → Prop) `{!Transitive R}
    {A B} (m : M A) (k : A → M B) :
  keeps R m → (∀ a, keeps R (k a)) → keeps R (bind m k).
Proof.
  intros Hm Hk s. unfold bind. specialize (Hm s).
  destruct (m s) as [[e|a] s']; simpl in *; [done|].
  transitivity s'; [done | apply Hk].
Qed.

Lemma keeps_pure (R : state → state → Prop) `{!Reflexive R}
    {A} (f : exn + A) :
  keeps R (fun s => (f, s)).
Proof. intros s. simpl. reflexivity. Qed.

#[local] Instance quiet_reflexive : Reflexive quiet := quiet_refl.
#[local] Instance quiet_transitive : Transitive quiet := quiet_trans.

#[local] Instance no_download_reflexive : Reflexive no_download.
Proof. by intros s. Qed.
#[local] Instance no_download_transitive : Transitive no_download.
Proof. unfold no_download. intros s1 s2 s3 H1 H2. congruence. Qed.

#[local] Instance same_tables_reflexive : Reflexive same_tables.
Proof. by intros s. Qed.
#[local] Instance same_tables_transitive : Transitive same_tables.
Proof. unfold same_tables. intros s1 s2 s3 H1 H2. congruence. Qed.

Lemma quiet_no_download s s' : quiet s s' → no_download s s'.
Proof. by intros (_ & _ & Hd & _). Qed.

Lemma quiet_same_tables s s' : quiet s s' → same_tables s s'.
Proof. by intros (_ & Hc & _). Qed.

Lemma keeps_weaken (R R' : state → state → Prop) {A} (m : M A) :
  (∀ s s', R s s' → R' s s') → keeps R m → keeps R' m.
Proof. intros Himp Hm s. apply Himp, Hm. Qed.

Lemma quiet_isfile p : keeps quiet (os_path_isfile p).
Proof. intros s. by apply quiet_record_event. Qed.

Lemma quiet_isdir p : keeps quiet (os_path_isdir p).
Proof. intros s. by apply quiet_record_event. Qed.

Lemma quiet_glob p r : keeps quiet (glob_glob p r).
Proof. intros s. by apply quiet_record_event. Qed.

Lemma quiet_json_load p : keeps quiet (json_load p).
Proof. intros s. by apply quiet_record_event. Qed.

Lemma quiet_rasterio_read p : keeps quiet (rasterio_read p).
Proof. intros s. by apply quiet_record_event. Qed.

Lemma quiet_np_load p : keeps quiet (np_load p).
Proof. intros s. by apply quiet_record_event. Qed.

Lemma quiet_dir_names_getitem key : keeps quiet (dir_names_getitem key).
Proof. intros s. apply quiet_refl. Qed.

Lemma quiet_globs_getitem key : keeps quiet (globs_getitem key).
Proof. apply keeps_of_option, _. Qed.

Lemma quiet_os_path_join_val a b v : keeps quiet (os_path_join_val a b v).
Proof. destruct v; [apply keeps_ret | apply keeps_raise]; apply _. Qed.

Lemma quiet_pyval_getitem v sub : keeps quiet (pyval_getitem v sub).
Proof.
  destruct v; [apply keeps_raise; apply _|]. cbn [pyval_getitem].
  apply keeps_bind; [apply _|apply keeps_of_option, _|].
  intros a. apply keeps_ret, _.
Qed.

(** Stepping through a chain of binds for a [keeps] goal. *)
Ltac keeps_step :=
  first
    [ apply keeps_ret; apply _
    | apply keeps_raise; apply _
    | apply keeps_of_option; apply _
    | apply keeps_pure; apply _
    | apply quiet_isfile | apply quiet_isdir | apply quiet_glob
    | apply quiet_json_load | apply quiet_rasterio_read | apply quiet_np_load
    | apply quiet_dir_names_getitem | apply quiet_globs_getitem
    | apply quiet_os_path_join_val | apply quiet_pyval_getitem
    | apply keeps_bind; [apply _ | | intros ?] ].

(** ** Sample access only reads *)

Lemma quiet_load_image self path : keeps quiet (_load_image self path).
Proof.
  unfold _load_image. keeps_step; [keeps_step|].
  case_bool_decide; [|keeps_step].
  unfold rescale_last. destruct (last _); keeps_step.
Qed.

Lemma quiet_load_sentinel self paths aerial_path :
  keeps quiet (_load_sentinel self paths aerial_path).
Proof.
  unfold _load_sentinel.
  repeat first
    [ keeps_step
    | match goal with
      | |- keeps _ (match ?p with _ => _ end) => destruct p
      end ].
Qed.

Lemma quiet_load_target self path : keeps quiet (_load_target self path).
Proof. unfold _load_target. repeat keeps_step. Qed.

(** X1: a sample access, whatever the index and whether it succeeds or
    raises, leaves the file system and the class dictionary [dir_names]
    as they were and neither downloads nor extracts anything. *)
Theorem getitem_only_reads (self : FLAIR2) (index : Z) (st : state) :
  quiet st (__getitem__ self index st).2.
Proof.
  revert st. change (keeps quiet (__getitem__ self index)).
  unfold __getitem__. keeps_step; [keeps_step|].
  keeps_step; [apply quiet_load_image|].
  keeps_step; [apply quiet_load_sentinel|].
  keeps_step; [apply quiet_load_target|].
  destruct (transforms self); keeps_step.
Qed.

(** ** Indexing, transforms and failure modes of a sample access *)

Lemma py_getitem_mod {A} (l : list A) (i : Z) :
  (- Z.of_nat (length l) ≤ i < Z.of_nat (length l))%Z →
  Py.getitem l i = l !! Z.to_nat (i mod Z.of_nat (length l))
  ∧ is_Some (l !! Z.to_nat (i mod Z.of_nat (length l))).
Proof.
  intros Hi. set (n := Z.of_nat (length l)) in *.
  assert (0 ≤ i mod n < n)%Z as Hm by (apply Z.mod_pos_bound; lia).
  split; [|apply lookup_lt_is_Some; lia].
  unfold Py.getitem. fold n.
  destruct (Z.leb_spec 0 i) as [Hpos|Hneg].
  - by rewrite Z.mod_small by lia.
  - destruct (Z.leb_spec 0 (i + n)) as [_|Hlt]; [|lia].
    replace (i mod n)%Z with (i + n)%Z; [done|].
    apply (Z.mod_unique_pos i n (-1)); lia.
Qed.

Lemma py_getitem_out_of_range {A} (l : list A) (i : Z) :
  ¬ (- Z.of_nat (length l) ≤ i < Z.of_nat (length l))%Z →
  Py.getitem l i = None.
Proof.
  intros Hi. unfold Py.getitem.
  destruct (Z.leb_spec 0 i) as [Hpos|Hneg].
  - apply lookup_ge_None_2. lia.
  - destruct (Z.leb_spec 0 (i + Z.of_nat (length l))) as [Hge|_]; [lia|done].
Qed.

(** X2: an index within [-len, len) reaches the entry at position
    [index mod len] (so [-1] is the last sample) and the access behaves
    exactly like the one at that position; any other index raises
    [IndexError] before anything is read. *)
Theorem getitem_index_wraps (self : FLAIR2) (index : Z) (st : state) :
  let n := Z.of_nat (__len__ self) in
  if bool_decide (- n ≤ index < n)%Z then
    __getitem__ self index st = __getitem__ self (index mod n) st
    ∧ is_Some (files self !! Z.to_nat (index mod n))
  else __getitem__ self index st = (inl IndexError, st).
Proof.
  intros n. unfold n, __len__. case_bool_decide as Hi.
  - destruct (py_getitem_mod (files self) index Hi) as [Hget Hsome].
    split; [|done]. unfold __getitem__. rewrite Hget.
    set (m := (index mod _)%Z).
    assert (0 ≤ m < Z.of_nat (length (files self)))%Z as Hm
      by (apply Z.mod_pos_bound; lia).
    destruct (py_getitem_mod (files self) m) as [Hget' _]; [lia|].
    rewrite Hget'. by rewrite (Z.mod_small m) by lia.
  - unfold __getitem__. by rewrite py_getitem_out_of_range.
Qed.

(** X3: the transform is applied last and to the finished sample only:
    an access with a transform [f] ends in the same state as the access
    without one, fails with the same exception when that one fails, and
    otherwise returns [f] of its sample. *)
Theorem getitem_applies_transform_last
    (self : FLAIR2) (f : sample → sample) (index : Z) (st : state) :
  __getitem__ (set_transforms self (Some f)) index st =
  let plain := __getitem__ (set_transforms self None) index st in
  (match plain.1 with
   | inl e => inl e
   | inr smp => inr (f smp)
   end, plain.2).
Proof.
  unfold __getitem__, bind. cbn [set_transforms files transforms].
  destruct (of_option IndexError (Py.getitem (files self) index) st)
    as [[e|entry] s1]; [done|].
  change (_load_image (set_transforms self ?t)) with (_load_image self).
  destruct (_load_image self (file_image entry) s1) as [[e|img] s2]; [done|].
  change (_load_sentinel (set_transforms self ?t)) with (_load_sentinel self).
  destruct (_load_sentinel self (file_sentinel entry) (file_image entry) s2)
    as [[e|sen] s3]; [done|].
  by destruct (_load_target _ (file_mask entry) s3) as [[e|msk] s4].
Qed.

Lemma bind_inr_inv {A B} (m : M A) (k : A → M B) (s s' : state) (b : B) :
  bind m k s = (inr b, s') →
  ∃ a s1, m s = (inr a, s1) ∧ k a s1 = (inr b, s').
Proof.
  unfold bind. destruct (m s) as [[e|a] s1]; [done|]. eauto.
Qed.

(** X4: without a transform, every value of the mask of a returned
    sample is a class index between 0 and 12. *)
Theorem getitem_mask_in_class_range
    (self : FLAIR2) (index : Z) (st st' : state) (smp : sample) :
  transforms self = None →
  __getitem__ self index st = (inr smp, st') →
  ∀ row v, row ∈ sample_mask smp → v ∈ row → (0 ≤ v ≤ 12)%Z.
Proof.
  intros Hnone Hrun. unfold __getitem__ in Hrun. rewrite Hnone in Hrun.
  apply bind_inr_inv in Hrun as (entry & s1 & _ & Hrun).
  apply bind_inr_inv in Hrun as (img & s2 & _ & Hrun).
  apply bind_inr_inv in Hrun as (sen & s3 & _ & Hrun).
  apply bind_inr_inv in Hrun as (msk & s4 & Hmask & Hrun).
  injection Hrun as <- _. cbn [sample_mask].
  unfold _load_target in Hmask.
  apply bind_inr_inv in Hmask as (raster & s5 & _ & Hmask).
  apply bind_inr_inv in Hmask as (array & s6 & _ & Hmask).
  injection Hmask as <- _. apply remap_mask_range.
Qed.

Lemma getitem_mask_in_class_range_witness :
  match __getitem__
          (Instance Scenario.toy_root "train" None false false all_bands true
             {[ "IMG_000001.tif" := JArr [JInt 20; JInt 17] ]}
             [FileRecord Scenario.toy_image
                (SentinelPaths Scenario.toy_sen_data Scenario.toy_sen_masks)
                Scenario.toy_label])
          (-1) (Scenario.fresh Scenario.toy_disk)
  with
  | (inr smp, _) =>
      ∀ row v, row ∈ sample_mask smp → v ∈ row → (0 ≤ v ≤ 12)%Z
  | (inl _, _) => False
  end.
Proof.
  destruct (__getitem__ _ (-1) (Scenario.fresh Scenario.toy_disk))
    as [[e|smp] st'] eqn:Hrun.
  - vm_compute in Hrun. discriminate.
  - refine (getitem_mask_in_class_range _ _ _ _ _ _ Hrun). reflexivity.
Defined.

Lemma removelast_fmap {A B} (f : A → B) (l : list A) :
  removelast (map f l) = map f (removelast l).
Proof.
  induction l as [|a [|b l] IH]; [done..|].
  change (removelast (map f (a :: b :: l)))
    with (f a :: removelast (map f (b :: l))).
  by rewrite IH.
Qed.

Lemma float_of_int_exact_on_bytes (v : Z) :
  (0 ≤ v ≤ 255)%Z → float_of_int v = inject_Z v.
Proof.
  intros Hv.
  assert (forallb (fun n => let q := float_of_int (Z.of_nat n) in
                            (Qnum q =? Z.of_nat n)%Z && (Qden q =? 1)%positive)
                  (seq 0 256) = true) as Hall by (by vm_compute).
  rewrite forallb_forall in Hall.
  specialize (Hall (Z.to_nat v)). rewrite Z2Nat.id in Hall by lia.
  destruct (float_of_int v) as [n d]. unfold inject_Z.
  apply andb_prop in Hall as [Hn Hd]; [|apply in_seq; lia].
  apply Z.eqb_eq in Hn. apply Pos.eqb_eq in Hd. simpl in *. congruence.
Qed.

(** X5: the image is the raster cast to float32; when B05 is among the
    requested bands the last channel, and only that one, is divided by 5
    in float32 (whichever band the file holds there), and a raster
    without any channel then gives [IndexError].  The cast is exact on
    8-bit pixel values and rounds larger integers (16777217 becomes
    16777216); the division rounds to the nearest float32 (7 / 5 becomes
    11744051 / 2^23 = 1.39999997615814208984375). *)
Theorem load_image_rescales_last_channel_only
    (self : FLAIR2) (path : string) (st : state) (array : tensor3 Z) :
  raster_content (world st) path = Some array →
  (_load_image self path st).1 =
    (if bool_decide ("B05" ∈ bands self) then
       match last array with
       | Some height =>
           inr (to_float3 (removelast array)
                ++ [map (map (fun v => float32_div (float_of_int v) 5)) height])
       | None => inl IndexError
       end
     else inr (to_float3 array))
  ∧ (∀ v, (0 ≤ v ≤ 255)%Z → float_of_int v = inject_Z v)
  ∧ float_of_int 16777217 = inject_Z 16777216
  ∧ float32_div (float_of_int 7) 5 = (11744051 # 8388608)%Q.
Proof.
  intros Hfile.
  split; [|split; [apply float_of_int_exact_on_bytes|split; by vm_compute]].
  unfold _load_image, bind, rasterio_read. rewrite Hfile.
  case_bool_decide; [|done]. unfold rescale_last, to_float3.
  change (map (map (map float_of_int)) array)
    with ((map (map float_of_int)) <$> array).
  rewrite fmap_last. destruct (last array) as [height|]; [|done].
  cbn [fmap option_fmap option_map ret fst]. do 2 f_equal.
  - apply removelast_fmap.
  - f_equal. rewrite map_map. apply map_ext. intros row. apply map_map.
Qed.

Lemma load_image_rescales_last_channel_only_witness :
  (_load_image
     (Instance Scenario.toy_root "train" None false false ["B05"] true ∅ [])
     Scenario.toy_image (Scenario.fresh Scenario.toy_disk)).1
  = inr [ [[10; 11]; [12; 13]]; [[20; 21]; [22; 23]]; [[30; 31]; [32; 33]];
          [[40; 41]; [42; 43]];
          [[10; 11]; [12; 13]] ]%Q.
Proof.
  etransitivity;
    [exact (proj1 (load_image_rescales_last_channel_only
                     (Instance Scenario.toy_root "train" None false false
                               ["B05"] true ∅ [])
                     Scenario.toy_image (Scenario.fresh Scenario.toy_disk)
                     Scenario.toy_aerial_raster eq_refl))
    |by vm_compute].
Defined.

Lemma run_with_result {A} (m : M A) (s : state) (a : A) :
  (m s).1 = inr a → m s = (inr a, (m s).2).
Proof. destruct (m s) as [r s']. simpl. by intros ->. Qed.

(** X6: when the aerial raster and the two satellite arrays of an entry
    can be read, what the centroid table holds for the aerial file's
    name decides the access, and there is no fallback centroid: no entry
    gives [KeyError]; [null], a boolean or a number gives [TypeError]
    (it cannot be unpacked); a list, a string or an object with other
    than two items gives [ValueError]; a string or an object with two
    items, and a list of two items that are not both numbers, give
    [TypeError] (the items cannot be subtracted from). *)
Theorem getitem_fails_without_centroid
    (self : FLAIR2) (index : Z) (st : state) (entry : file_record)
    (array : tensor3 Z) (data qmask : tensor4 Z) :
  Py.getitem (files self) index = Some entry →
  raster_content (world st) (file_image entry) = Some array →
  array ≠ [] →
  npy_content (world st) (paths_data (file_sentinel entry)) = Some data →
  npy_content (world st) (paths_snow_cloud_mask (file_sentinel entry))
    = Some qmask →
  let is_number (j : json) :=
    match j with JInt _ | JFloat _ | JBool _ => true | _ => false end in
  let outcome := (__getitem__ self index st).1 in
  match centroids self !! Py.os_path_basename (file_image entry) with
  | None => outcome = inl KeyError
  | Some JNull | Some (JBool _) | Some (JInt _) | Some (JFloat _) =>
      outcome = inl TypeError
  | Some (JStr s) =>
      outcome = inl (if (length (Py.str_chars s) =? 2)%nat
                     then TypeError else ValueError)
  | Some (JObj members) =>
      outcome = inl (if (length (Py.keys (Py.dict_of_items members)) =? 2)%nat
                     then TypeError else ValueError)
  | Some (JArr [y; x]) =>
      is_number y && is_number x = false → outcome = inl TypeError
  | Some (JArr _) => outcome = inl ValueError
  end.
Proof.
  intros Hentry Hraster Hne Hdata Hmask is_number outcome. subst outcome.
  unfold __getitem__. rewrite Hentry. cbn [of_option]. rewrite bind_ret.
  destruct (load_image_keeps_file_channels self _ st array Hraster Hne)
    as (img & Himg & _).
  pose proof (quiet_load_image self (file_image entry) st) as (Hw & _).
  rewrite (bind_returns _ _ _ _ _ (run_with_result _ _ _ Himg)).
  set (s1 := (_load_image self (file_image entry) st).2) in *.
  assert (∀ e,
            (∀ c, centroids self !! Py.os_path_basename (file_image entry)
                  = Some c →
                  _crop_super_patch (to_float4 data) c = inl e) →
            (centroids self !! Py.os_path_basename (file_image entry) = None →
             e = KeyError) →
            (bind (_load_sentinel self (file_sentinel entry)
                                  (file_image entry))
                  (fun sentinel =>
                     let* mask := _load_target self (file_mask entry) in
                     match transforms self with
                     | Some f => ret (f (Sample img sentinel mask))
                     | None => ret (Sample img sentinel mask)
                     end) s1).1 = inl e) as Hfail.
  { intros e Hcrop Hnone.
    erewrite bind_fails; [done|].
    unfold _load_sentinel, bind, np_load. rewrite Hw, Hdata.
    cbn [world record_event]. rewrite Hw, Hmask.
    destruct (centroids self !! Py.os_path_basename (file_image entry))
      as [c|] eqn:Hc.
    - cbn [of_option ret]. by rewrite (Hcrop c eq_refl).
    - cbn [of_option raise fst]. by rewrite Hnone. }
  destruct (centroids self !! Py.os_path_basename (file_image entry))
    as [c|] eqn:Hc; [|by apply Hfail].
  destruct c as [| b | z | f | s | items | members].
  - apply Hfail; [by intros c [= <-]|done].
  - apply Hfail; [by intros c [= <-]|done].
  - apply Hfail; [by intros c [= <-]|done].
  - apply Hfail; [by intros c [= <-]|done].
  - apply Hfail; [intros c [= <-]|done].
    unfold _crop_super_patch, unpack_pair.
    destruct (Py.str_chars s) as [|a [|b [|c l]]]; done.
  - destruct items as [|y [|x [|z items]]].
    + apply Hfail; [by intros c [= <-]|done].
    + apply Hfail; [by intros c [= <-]|done].
    + intros Hnum. apply Hfail; [intros c [= <-]|done].
      unfold _crop_super_patch, unpack_pair.
      destruct x; try done; cbn [py_sub py_add]; destruct y; done.
    + apply Hfail; [by intros c [= <-]|done].
  - apply Hfail; [intros c [= <-]|done].
    unfold _crop_super_patch, unpack_pair.
    destruct (Py.keys (Py.dict_of_items members)) as [|a [|b [|c l]]]; done.
Qed.

Lemma getitem_fails_without_centroid_witness :
  (__getitem__
     (Instance Scenario.toy_root "train" None false false all_bands true ∅
        [FileRecord Scenario.toy_image
           (SentinelPaths Scenario.toy_sen_data Scenario.toy_sen_masks)
           Scenario.toy_label])
     0 (Scenario.fresh Scenario.toy_disk)).1
  = inl KeyError
  ∧ (__getitem__
       (Instance Scenario.toy_root "train" None false false all_bands true
          {[ "IMG_000001.tif" := JInt 20 ]}
          [FileRecord Scenario.toy_image
             (SentinelPaths Scenario.toy_sen_data Scenario.toy_sen_masks)
             Scenario.toy_label])
       0 (Scenario.fresh Scenario.toy_disk)).1
    = inl TypeError.
Proof.
  split.
  - exact (getitem_fails_without_centroid
             (Instance Scenario.toy_root "train" None false false all_bands
                true ∅
                [FileRecord Scenario.toy_image
                   (SentinelPaths Scenario.toy_sen_data Scenario.toy_sen_masks)
                   Scenario.toy_label])
             0 (Scenario.fresh Scenario.toy_disk) _
             Scenario.toy_aerial_raster
             (Scenario.toy_super_area 7) (Scenario.toy_super_area 0)
             eq_refl eq_refl ltac:(discriminate) eq_refl eq_refl).
  - exact (getitem_fails_without_centroid
             (Instance Scenario.toy_root "train" None false false all_bands
                true {[ "IMG_000001.tif" := JInt 20 ]}
                [FileRecord Scenario.toy_image
                   (SentinelPaths Scenario.toy_sen_data Scenario.toy_sen_masks)
                   Scenario.toy_label])
             0 (Scenario.fresh Scenario.toy_disk) _
             Scenario.toy_aerial_raster
             (Scenario.toy_super_area 7) (Scenario.toy_super_area 0)
             eq_refl eq_refl ltac:(discriminate) eq_refl eq_refl).
Defined.

(** ** The index built by _load_files *)

Lemma insert_sorted_perm (x : string) (l : list string) :
  Py.insert_sorted x l ≡ₚ x :: l.
Proof.
  induction l as [|y l IH]; [done|]. cbn [Py.insert_sorted].
  destruct (String.leb x y); [done|]. rewrite IH. apply perm_swap.
Qed.

Lemma py_sorted_perm (l : list string) : Py.sorted l ≡ₚ l.
Proof.
  induction l as [|x l IH]; [done|]. cbn [Py.sorted foldr].
  rewrite insert_sorted_perm. by f_equiv.
Qed.

Lemma insert_sorted_ascending (x : string) (l : list string) :
  Sorted str_le l → Sorted str_le (Py.insert_sorted x l).
Proof.
  induction l as [|y l IH]; intros Hl; cbn [Py.insert_sorted].
  { by repeat constructor. }
  destruct (String.leb x y) eqn:Hxy.
  - constructor; [done|]. by constructor.
  - apply Sorted_inv in Hl as [Hl Hhd]. constructor; [by apply IH|].
    assert (str_le y x) as Hyx.
    { destruct (String.leb_total x y) as [H|H]; [congruence|done]. }
    destruct l as [|z l]; cbn [Py.insert_sorted].
    + by constructor.
    + destruct (String.leb x z); constructor; [done|].
      by apply HdRel_inv in Hhd.
Qed.

Lemma py_sorted_ascending (l : list string) : Sorted str_le (Py.sorted l).
Proof.
  induction l as [|x l IH]; [constructor|].
  cbn [Py.sorted foldr]. by apply insert_sorted_ascending.
Qed.

Lemma Sorted_take {A} (R : relation A) (n : nat) (l : list A) :
  Sorted R l → Sorted R (take n l).
Proof.
  revert n. induction l as [|x l IH]; intros [|n] Hl; simpl; try constructor.
  - apply IH. by apply Sorted_inv in Hl as [? _].
  - apply Sorted_inv in Hl as [_ Hhd].
    destruct n, l; simpl; constructor. by apply HdRel_inv in Hhd.
Qed.

Lemma pair_up_columns (a sd sm c : list string) :
  let index := pair_up a sd sm c in
  length index
    = (length a `min` (length sd `min` (length sm `min` length c)))%nat
  ∧ map file_image index = take (length index) a
  ∧ map (fun e => paths_data (file_sentinel e)) index = take (length index) sd
  ∧ map (fun e => paths_snow_cloud_mask (file_sentinel e)) index
    = take (length index) sm
  ∧ map file_mask index = take (length index) c.
Proof.
  unfold pair_up. revert sd sm c.
  induction a as [|x a IH]; intros [|y sd] [|z sm] [|w c]; simpl;
    try (repeat split; try done; lia).
  destruct (IH sd sm c) as (Hlen & Ha & Hsd & Hsm & Hc). simpl in *.
  repeat split; [lia|by f_equal..].
Qed.

Section Index.
Variable self : FLAIR2.
Variable st : state.
Variables (items : list (string * string)) (d_img d_sen d_msk : string).
Hypothesis Hsplit : Py.assoc_get (split self) (cls_dir_names st) = Some items.
Hypothesis Himg : Py.assoc_get "images" items = Some d_img.
Hypothesis Hsen : Py.assoc_get "sentinels" items = Some d_sen.
Hypothesis Hmsk : Py.assoc_get "masks" items = Some d_msk.

Lemma sorted_glob_run kind d (pattern : M pyval) pat s :
  world s = world st → cls_dir_names s = cls_dir_names st →
  Py.assoc_get kind items = Some d →
  (∀ s', pattern s' = (inr (PStr pat), s')) →
  ∃ s1, sorted_glob self kind pattern s
        = (inr (Py.sorted (matches (world st) (root self) d pat)), s1)
        ∧ world s1 = world st ∧ cls_dir_names s1 = cls_dir_names st.
Proof using Hsplit.
  intros Hw Hc Hkind Hpat. eexists. split; [|split].
  - unfold sorted_glob. rewrite bind_dir_names_getitem, Hc, Hsplit, Hkind.
    cbn [of_option]. rewrite bind_ret. unfold bind at 1. rewrite Hpat.
    cbn [os_path_join_val]. rewrite bind_ret, bind_glob, Hw. reflexivity.
  - done.
  - done.
Qed.

Lemma load_files_run :
  ∃ st',
    _load_files self st
    = (inr (pair_up
              (Py.sorted (matches (world st) (root self) d_img "IMG_*.tif"))
              (Py.sorted (matches (world st) (root self) d_sen "SEN2_*_data.npy"))
              (Py.sorted (matches (world st) (root self) d_sen "SEN2_*_masks.npy"))
              (Py.sorted (matches (world st) (root self) d_msk "MSK_*.tif"))),
       st').
Proof using Hsplit Himg Hsen Hmsk.
  unfold _load_files.
  destruct (sorted_glob_run "images" d_img (globs_getitem "images")
              "IMG_*.tif" st) as (s1 & Hrun1 & Hw1 & Hc1); [done..|].
  rewrite (bind_returns _ _ _ _ _ Hrun1).
  destruct (sorted_glob_run "sentinels" d_sen
              (globs_getitem2 "sentinels" "data")
              "SEN2_*_data.npy" s1) as (s2 & Hrun2 & Hw2 & Hc2); [done..|].
  rewrite (bind_returns _ _ _ _ _ Hrun2).
  destruct (sorted_glob_run "sentinels" d_sen
              (globs_getitem2 "sentinels" "snow_cloud_mask")
              "SEN2_*_masks.npy" s2) as (s3 & Hrun3 & Hw3 & Hc3); [done..|].
  rewrite (bind_returns _ _ _ _ _ Hrun3).
  destruct (sorted_glob_run "masks" d_msk (globs_getitem "masks")
              "MSK_*.tif" s3) as (s4 & Hrun4 & Hw4 & Hc4); [done..|].
  rewrite (bind_returns _ _ _ _ _ Hrun4).
  by eexists.
Qed.
End Index.

Lemma quiet_sorted_glob self kind (pattern : M pyval) :
  keeps quiet pattern → keeps quiet (sorted_glob self kind pattern).
Proof. intros Hp. unfold sorted_glob. repeat keeps_step. done. Qed.

Lemma quiet_load_files self : keeps quiet (_load_files self).
Proof.
  assert (∀ key sub, keeps quiet (globs_getitem2 key sub)) as Hsub.
  { intros key sub. unfold globs_getitem2. repeat keeps_step. }
  unfold _load_files.
  repeat first
    [ apply quiet_sorted_glob; first [apply quiet_globs_getitem | apply Hsub]
    | keeps_step ].
Qed.

(** The index as four columns. *)
Lemma load_files_columns
    (self : FLAIR2) (st : state)
    (items : list (string * string)) (d_img d_sen d_msk : string) :
  Py.assoc_get (split self) (cls_dir_names st) = Some items →
  Py.assoc_get "images" items = Some d_img →
  Py.assoc_get "sentinels" items = Some d_sen →
  Py.assoc_get "masks" items = Some d_msk →
  let found := matches (world st) (root self) in
  ∃ (index : list file_record) (st' : state),
    _load_files self st = (inr index, st')
    ∧ quiet st st'
    ∧ length index
      = (length (found d_img "IMG_*.tif")
         `min` (length (found d_sen "SEN2_*_data.npy")
         `min` (length (found d_sen "SEN2_*_masks.npy")
         `min` length (found d_msk "MSK_*.tif"))))%nat
    ∧ map file_image index
      = take (length index) (Py.sorted (found d_img "IMG_*.tif"))
    ∧ map (fun e => paths_data (file_sentinel e)) index
      = take (length index) (Py.sorted (found d_sen "SEN2_*_data.npy"))
    ∧ map (fun e => paths_snow_cloud_mask (file_sentinel e)) index
      = take (length index) (Py.sorted (found d_sen "SEN2_*_masks.npy"))
    ∧ map file_mask index
      = take (length index) (Py.sorted (found d_msk "MSK_*.tif")).
Proof.
  intros Hsplit Himg Hsen Hmsk found.
  destruct (load_files_run self st items d_img d_sen d_msk) as [st' Hrun];
    [done..|].
  eexists _, st'. split; [exact Hrun|]. split.
  { pose proof (quiet_load_files self st) as Hq. by rewrite Hrun in Hq. }
  subst found.
  pose proof (pair_up_columns
                (Py.sorted (matches (world st) (root self) d_img "IMG_*.tif"))
                (Py.sorted (matches (world st) (root self) d_sen
                                    "SEN2_*_data.npy"))
                (Py.sorted (matches (world st) (root self) d_sen
                                    "SEN2_*_masks.npy"))
                (Py.sorted (matches (world st) (root self) d_msk "MSK_*.tif")))
    as Hcols.
  cbv zeta in Hcols. destruct Hcols as (Hlen & Hcols).
  split; [|exact Hcols].
  rewrite Hlen. by rewrite !(Permutation_length (py_sorted_perm _)).
Qed.


(** X7: when the class dictionary names the three directories of the
    split, building the index succeeds and only reads.  The index pairs,
    position by position, the sorted matches of the four globs and stops
    at the shortest list: its length is the least of the four counts, and
    each of its columns is a prefix of the corresponding sorted list. *)
Theorem load_files_pairs_by_position_and_truncates
    (self : FLAIR2) (st : state)
    (items : list (string * string)) (d_img d_sen d_msk : string) :
  Py.assoc_get (split self) (cls_dir_names st) = Some items →
  Py.assoc_get "images" items = Some d_img →
  Py.assoc_get "sentinels" items = Some d_sen →
  Py.assoc_get "masks" items = Some d_msk →
  let found := matches (world st) (root self) in
  ∃ (index : list file_record) (st' : state),
    _load_files self st = (inr index, st')
    ∧ quiet st st'
    ∧ length index
      = (length (found d_img "IMG_*.tif")
         `min` (length (found d_sen "SEN2_*_data.npy")
         `min` (length (found d_sen "SEN2_*_masks.npy")
         `min` length (found d_msk "MSK_*.tif"))))%nat
    ∧ map file_image index
      = take (length index) (Py.sorted (found d_img "IMG_*.tif"))
    ∧ map (fun e => paths_data (file_sentinel e)) index
      = take (length index) (Py.sorted (found d_sen "SEN2_*_data.npy"))
    ∧ map (fun e => paths_snow_cloud_mask (file_sentinel e)) index
      = take (length index) (Py.sorted (found d_sen "SEN2_*_masks.npy"))
    ∧ map file_mask index
      = take (length index) (Py.sorted (found d_msk "MSK_*.tif")).
Proof.
  intros Hsplit Himg Hsen Hmsk found.
  exact (load_files_columns self st items d_img d_sen d_msk
                            Hsplit Himg Hsen Hmsk).
Qed.

Lemma load_files_pairs_by_position_and_truncates_witness :
  ∃ (index : list file_record) (st' : state),
    _load_files (Instance "data" "train" None false false all_bands false ∅ [])
                (Scenario.fresh Scenario.full_disk)
    = (inr index, st')
    ∧ length index = 1%nat.
Proof.
  destruct (load_files_pairs_by_position_and_truncates
              (Instance "data" "train" None false false all_bands false ∅ [])
              (Scenario.fresh Scenario.full_disk)
              _ _ _ _ eq_refl eq_refl eq_refl eq_refl)
    as (index & st' & Hrun & _ & Hlen & _).
  exists index, st'. split; [exact Hrun|]. rewrite Hlen. reflexivity.
Defined.

(** X8: under the same condition, the aerial paths of the index are in
    ascending code-point order and each is one of the files the image
    glob matched; likewise the mask paths. *)
Theorem load_files_index_is_ascending
    (self : FLAIR2) (st : state)
    (items : list (string * string)) (d_img d_sen d_msk : string) :
  Py.assoc_get (split self) (cls_dir_names st) = Some items →
  Py.assoc_get "images" items = Some d_img →
  Py.assoc_get "sentinels" items = Some d_sen →
  Py.assoc_get "masks" items = Some d_msk →
  ∃ (index : list file_record) (st' : state),
    _load_files self st = (inr index, st')
    ∧ Sorted str_le (map file_image index)
    ∧ Sorted str_le (map file_mask index)
    ∧ (∀ e, e ∈ index →
         file_image e ∈ matches (world st) (root self) d_img "IMG_*.tif"
         ∧ file_mask e ∈ matches (world st) (root self) d_msk "MSK_*.tif").
Proof.
  intros Hsplit Himg Hsen Hmsk.
  destruct (load_files_columns
              self st items d_img d_sen d_msk Hsplit Himg Hsen Hmsk)
    as (index & st' & Hrun & _ & _ & Hi & _ & _ & Hm).
  exists index, st'. split; [done|].
  split; [rewrite Hi; apply Sorted_take, py_sorted_ascending|].
  split; [rewrite Hm; apply Sorted_take, py_sorted_ascending|].
  intros e He. split.
  - assert (file_image e ∈ map file_image index) as Hin
      by (apply list_elem_of_fmap; eauto).
    rewrite Hi in Hin. apply elem_of_take in Hin as (i & Hin & _).
    apply list_elem_of_lookup_2 in Hin. by rewrite py_sorted_perm in Hin.
  - assert (file_mask e ∈ map file_mask index) as Hin
      by (apply list_elem_of_fmap; eauto).
    rewrite Hm in Hin. apply elem_of_take in Hin as (i & Hin & _).
    apply list_elem_of_lookup_2 in Hin. by rewrite py_sorted_perm in Hin.
Qed.

Lemma load_files_index_is_ascending_witness :
  ∃ (index : list file_record) (st' : state),
    _load_files (Instance "data" "train" None false false all_bands false ∅ [])
                (Scenario.fresh Scenario.full_disk)
    = (inr index, st')
    ∧ Sorted str_le (map file_image index).
Proof.
  destruct (load_files_index_is_ascending
              (Instance "data" "train" None false false all_bands false ∅ [])
              (Scenario.fresh Scenario.full_disk)
              _ _ _ _ eq_refl eq_refl eq_refl eq_refl)
    as (index & st' & Hrun & Hasc & _).
  by exists index, st'.
Defined.

(** ** What verification and construction do and never do *)

Lemma keeps_quiet_as (R : state → state → Prop) {A} (m : M A) :
  (∀ s s', quiet s s' → R s s') → keeps quiet m → keeps R m.
Proof. apply keeps_weaken. Qed.

Lemma scan_dirs_keeps_quiet self items acc :
  keeps quiet (scan_dirs self items acc).
Proof. intros s. apply scan_dirs_quiet. Qed.

(** One step of a [keeps R] goal for a relation [R] that [quiet] implies
    (the implication is [W]). *)
Ltac rel_step W :=
  first
    [ apply keeps_ret; apply _
    | apply keeps_raise; apply _
    | apply keeps_of_option; apply _
    | apply keeps_pure; apply _
    | apply (keeps_quiet_as _ _ W);
      first [ apply quiet_isfile | apply quiet_isdir | apply quiet_glob
            | apply quiet_json_load | apply quiet_dir_names_getitem
            | apply quiet_load_files
            | apply scan_dirs_keeps_quiet ]
    | apply keeps_bind; [apply _ | | intros ?] ].

(** Case analysis on what a [keeps] goal branches on. *)
Ltac keeps_case :=
  match goal with
  | |- keeps _ (match ?x with _ => _ end) => destruct x
  end.

Section Effects.
Variable fetch_effect : string → string → World → World.
Variable unpack_effect : string → World → World.
Variable self : FLAIR2.

Lemma no_download_extract file_path :
  keeps no_download (_extract unpack_effect self file_path).
Proof.
  intros s. unfold no_download. simpl. rewrite filter_app. simpl.
  by rewrite app_nil_r.
Qed.

Lemma no_download_extract_local candidates : ∀ to_download,
  keeps no_download (extract_local unpack_effect self candidates to_download).
Proof.
  induction candidates as [|c candidates IH]; intros to_download;
    cbn [extract_local];
    repeat first [ apply IH | apply no_download_extract
                 | rel_step quiet_no_download | keeps_case ].
Qed.

Lemma no_download_setitem key value :
  keeps no_download (dir_names_setitem key value).
Proof. by intros s. Qed.

Lemma no_download_verify_toy :
  download self = false →
  keeps no_download (_verify_toy fetch_effect unpack_effect self).
Proof.
  intros Hdl. unfold _verify_toy. rewrite Hdl. cbn [negb].
  repeat first [ apply no_download_extract
               | rel_step quiet_no_download | keeps_case ].
Qed.

Lemma no_download_verify :
  download self = false →
  keeps no_download (_verify fetch_effect unpack_effect self).
Proof.
  intros Hdl. unfold _verify. rewrite Hdl. cbn [negb].
  repeat first [ by apply no_download_verify_toy
               | apply no_download_setitem
               | apply no_download_extract
               | apply no_download_extract_local
               | rel_step quiet_no_download
               | keeps_case; cbn [negb] ].
Qed.
End Effects.

(** X9: with the download flag off, construction never downloads
    anything, however it ends and whatever is on disk. *)
Theorem init_without_download_flag_never_downloads
    (fetch_effect : string → string → World → World)
    (unpack_effect : string → World → World)
    (root sp : string) (bands : list string)
    (transforms : option (sample → sample))
    (checksum use_toy : bool) (st : state) :
  filter is_download
    (trace (__init__ fetch_effect unpack_effect root sp bands transforms
                     false checksum use_toy st).2)
  = filter is_download (trace st).
Proof.
  revert st.
  change (keeps no_download
            (__init__ fetch_effect unpack_effect root sp bands transforms
                      false checksum use_toy)).
  unfold __init__. destruct (negb _); [rel_step quiet_no_download|].
  rel_step quiet_no_download; [by apply no_download_verify|].
  unfold _load_centroids.
  repeat rel_step quiet_no_download.
Qed.

(** ** Exceptions that cannot come out *)

Lemma never_ret (e : exn) {A} (a : A) : never_raises e (ret a).
Proof. by intros s. Qed.

Lemma never_raise_other (e e' : exn) {A} :
  e' ≠ e → never_raises e (raise (A := A) e').
Proof. intros Hne s. simpl. congruence. Qed.

Lemma never_of_option (e e' : exn) {A} (o : option A) :
  e' ≠ e → never_raises e (of_option e' o).
Proof. intros Hne. destruct o; [apply never_ret | by apply never_raise_other]. Qed.

Lemma never_bind (e : exn) {A B} (m : M A) (k : A → M B) :
  never_raises e m → (∀ a, never_raises e (k a)) → never_raises e (bind m k).
Proof.
  intros Hm Hk s. unfold bind. specialize (Hm s).
  destruct (m s) as [[e'|a] s']; simpl in *; [|apply Hk].
  intros [= ->]. by apply Hm.
Qed.

(** Every primitive of the monad either cannot fail or fails with an
    exception other than [DatasetNotFoundError]. *)
Lemma never_dnf_primitives :
  (∀ p, never_raises DatasetNotFoundError (os_path_isfile p))
  ∧ (∀ p, never_raises DatasetNotFoundError (os_path_isdir p))
  ∧ (∀ p r, never_raises DatasetNotFoundError (glob_glob p r))
  ∧ (∀ p, never_raises DatasetNotFoundError (json_load p))
  ∧ (∀ k, never_raises DatasetNotFoundError (dir_names_getitem k))
  ∧ (∀ k v, never_raises DatasetNotFoundError (dir_names_setitem k v))
  ∧ (∀ k, never_raises DatasetNotFoundError (globs_getitem k))
  ∧ (∀ a b v, never_raises DatasetNotFoundError (os_path_join_val a b v))
  ∧ (∀ v sub, never_raises DatasetNotFoundError (pyval_getitem v sub)).
Proof.
  repeat split; intros.
  - by intros s.
  - by intros s.
  - by intros s.
  - intros s. unfold json_load. simpl. by destruct (json_content _ _).
  - intros s. unfold dir_names_getitem. simpl. by destruct (Py.assoc_get _ _).
  - by intros s.
  - by apply never_of_option.
  - destruct v; [apply never_ret | by apply never_raise_other].
  - destruct v; [by apply never_raise_other|]. cbn [pyval_getitem].
    apply never_bind; [by apply never_of_option|]. intros. apply never_ret.
Qed.

Ltac never_step :=
  first
    [ apply never_ret
    | apply never_raise_other; discriminate
    | apply never_of_option; discriminate
    | apply never_dnf_primitives
    | apply never_bind; [ | intros ?] ].

Ltac never_case :=
  match goal with
  | |- never_raises _ (match ?x with _ => _ end) => destruct x
  end.

Section Never.
Variable fetch_effect : string → string → World → World.
Variable unpack_effect : string → World → World.
Variable self : FLAIR2.

Lemma never_dnf_extract file_path :
  never_raises DatasetNotFoundError (_extract unpack_effect self file_path).
Proof. by intros s. Qed.

Lemma never_dnf_download url :
  never_raises DatasetNotFoundError (_download fetch_effect self url).
Proof. by intros s. Qed.

Lemma never_dnf_scan_dirs items : ∀ acc,
  never_raises DatasetNotFoundError (scan_dirs self items acc).
Proof.
  induction items as [|[k d] items IH]; intros acc; cbn [scan_dirs];
    repeat first [ apply IH | never_step | never_case; cbn [negb] ].
Qed.

Lemma never_dnf_extract_local candidates : ∀ to_download,
  never_raises DatasetNotFoundError
    (extract_local unpack_effect self candidates to_download).
Proof.
  induction candidates as [|c candidates IH]; intros to_download;
    cbn [extract_local];
    repeat first [ apply IH | apply never_dnf_extract
                 | never_step | never_case ].
Qed.

Lemma never_dnf_download_all to_download :
  never_raises DatasetNotFoundError
    (download_all fetch_effect unpack_effect self to_download).
Proof.
  induction to_download as [|c to_download IH]; cbn [download_all];
    repeat first [ apply IH | apply never_dnf_extract | apply never_dnf_download
                 | never_step ].
Qed.

Lemma never_dnf_verify :
  download self = true →
  never_raises DatasetNotFoundError (_verify fetch_effect unpack_effect self).
Proof.
  intros Hdl. unfold _verify, _verify_toy. rewrite Hdl. cbn [negb].
  repeat first [ apply never_dnf_extract | apply never_dnf_download
               | apply never_dnf_scan_dirs | apply never_dnf_extract_local
               | apply never_dnf_download_all
               | never_step | never_case; cbn [negb] ].
Qed.

Lemma never_dnf_load_files :
  never_raises DatasetNotFoundError (_load_files self).
Proof.
  unfold _load_files, sorted_glob, globs_getitem2.
  repeat first [ never_step | never_case ].
Qed.
End Never.

(** X10: with the download flag on, construction never ends with
    [DatasetNotFoundError], whatever is on disk and whatever the
    downloads and extractions do. *)
Theorem init_with_download_flag_never_gives_up
    (fetch_effect : string → string → World → World)
    (unpack_effect : string → World → World)
    (root sp : string) (bands : list string)
    (transforms : option (sample → sample))
    (checksum use_toy : bool) (st : state) :
  (__init__ fetch_effect unpack_effect root sp bands transforms
            true checksum use_toy st).1
  ≠ inl DatasetNotFoundError.
Proof.
  revert st.
  change (never_raises DatasetNotFoundError
            (__init__ fetch_effect unpack_effect root sp bands transforms
                      true checksum use_toy)).
  unfold __init__. destruct (negb _); [never_step|].
  never_step; [by apply never_dnf_verify|].
  unfold _load_centroids.
  never_step; [never_step|].
  never_step; [apply never_dnf_load_files|]. never_step.
Qed.

(** ** What verification returns *)

Lemma verify_toy_result
    (fetch_effect : string → string → World → World)
    (unpack_effect : string → World → World)
    (self self' : FLAIR2) (st st' : state) :
  _verify_toy fetch_effect unpack_effect self st = (inr self', st') →
  self' = set_root self (Py.os_path_join (root self) ["flair_2_toy_dataset"]).
Proof.
  unfold _verify_toy, bind, os_path_isdir, os_path_isfile. simpl.
  destruct (isdir _ _); [by intros [= <- _]|].
  destruct (isfile _ _); [by intros [= <- _]|].
  destruct (download self); [by intros [= <- _]|done].
Qed.

(** [returns_only P m]: when [m] returns, its result satisfies [P]. *)
Lemma returns_only_bind {A B} (P : B → Prop) (m : M A) (k : A → M B) :
  (∀ a s b s', k a s = (inr b, s') → P b) →
  ∀ s b s', bind m k s = (inr b, s') → P b.
Proof.
  intros Hk s b s' Hrun.
  apply bind_inr_inv in Hrun as (a & s1 & _ & Hrun). eauto.
Qed.

Section Tables.
Variable fetch_effect : string → string → World → World.
Variable unpack_effect : string → World → World.
Variable self : FLAIR2.

Lemma same_tables_extract file_path :
  keeps same_tables (_extract unpack_effect self file_path).
Proof. by intros s. Qed.

Lemma same_tables_download url :
  keeps same_tables (_download fetch_effect self url).
Proof. by intros s. Qed.

Lemma same_tables_extract_local candidates : ∀ to_download,
  keeps same_tables (extract_local unpack_effect self candidates to_download).
Proof.
  induction candidates as [|c candidates IH]; intros to_download;
    cbn [extract_local];
    repeat first [ apply IH | apply same_tables_extract
                 | rel_step quiet_same_tables | keeps_case ].
Qed.

Lemma same_tables_download_all to_download :
  keeps same_tables (download_all fetch_effect unpack_effect self to_download).
Proof.
  induction to_download as [|c to_download IH]; cbn [download_all];
    repeat first [ apply IH | apply same_tables_extract
                 | apply same_tables_download
                 | rel_step quiet_same_tables ].
Qed.

Lemma same_tables_verify :
  use_toy self = false →
  keeps same_tables (_verify fetch_effect unpack_effect self).
Proof.
  intros Htoy. unfold _verify. rewrite Htoy.
  repeat first [ apply same_tables_extract | apply same_tables_download
               | apply same_tables_extract_local
               | apply same_tables_download_all
               | rel_step quiet_same_tables
               | keeps_case; cbn [negb] ].
Qed.
End Tables.

Lemma verify_result
    (fetch_effect : string → string → World → World)
    (unpack_effect : string → World → World)
    (self self' : FLAIR2) (st st' : state) :
  _verify fetch_effect unpack_effect self st = (inr self', st') →
  self' = (if use_toy self
           then set_root self
                  (Py.os_path_join (root self) ["flair_2_toy_dataset"])
           else self).
Proof.
  intros Hrun. unfold _verify in Hrun. destruct (use_toy self).
  - apply bind_inr_inv in Hrun as (toy & s1 & Htoy & Hrun).
    apply verify_toy_result in Htoy as ->.
    repeat (apply bind_inr_inv in Hrun as (? & ? & _ & Hrun)).
    by injection Hrun as <- _.
  - repeat (apply bind_inr_inv in Hrun as (? & ? & _ & Hrun)).
    repeat match type of Hrun with
           | context [match ?x with _ => _ end] => destruct x
           end;
      repeat (apply bind_inr_inv in Hrun as (? & ? & _ & Hrun));
      try done;
      try by injection Hrun as <- _.
    all: repeat match type of Hrun with
           | context [match ?x with _ => _ end] => destruct x
           end;
      repeat (apply bind_inr_inv in Hrun as (? & ? & _ & Hrun));
      try done;
      try by injection Hrun as <- _.
Qed.


(** X11: when verification returns, the instance it hands back is the
    one it was given, except that in toy mode [root] now names the toy
    directory under the old root. *)
Theorem verify_changes_only_root
    (fetch_effect : string → string → World → World)
    (unpack_effect : string → World → World)
    (self self' : FLAIR2) (st st' : state) :
  _verify fetch_effect unpack_effect self st = (inr self', st') →
  self' = (if use_toy self
           then set_root self
                  (Py.os_path_join (root self) ["flair_2_toy_dataset"])
           else self).
Proof. apply verify_result. Qed.

Lemma verify_changes_only_root_witness :
  match _verify Scenario.fetch Scenario.unpack
          (Instance "data" "train" None false false all_bands true ∅ [])
          (Scenario.fresh Scenario.toy_disk)
  with
  | (inr self', _) =>
      self' = Instance "data/flair_2_toy_dataset" "train" None false false
                       all_bands true ∅ []
  | (inl _, _) => False
  end.
Proof.
  destruct (_verify Scenario.fetch Scenario.unpack _
              (Scenario.fresh Scenario.toy_disk))
    as [[e|self'] st'] eqn:Hrun.
  - vm_compute in Hrun. discriminate.
  - exact (verify_changes_only_root _ _ _ _ _ _ Hrun).
Defined.

(** X12: outside toy mode verification leaves the class dictionary
    [dir_names] as it was, whether it returns or raises. *)
Theorem verify_outside_toy_mode_keeps_dir_names
    (fetch_effect : string → string → World → World)
    (unpack_effect : string → World → World)
    (self : FLAIR2) (st : state) :
  use_toy self = false →
  cls_dir_names (_verify fetch_effect unpack_effect self st).2
  = cls_dir_names st.
Proof. intros Htoy. by apply same_tables_verify. Qed.

Lemma verify_outside_toy_mode_keeps_dir_names_witness :
  cls_dir_names
    (_verify Scenario.fetch Scenario.unpack
       (Instance "data" "train" None true false all_bands false ∅ [])
       (Scenario.fresh Scenario.bare_disk)).2
  = dir_names.
Proof.
  exact (verify_outside_toy_mode_keeps_dir_names
           Scenario.fetch Scenario.unpack
           (Instance "data" "train" None true false all_bands false ∅ [])
           (Scenario.fresh Scenario.bare_disk) eq_refl).
Defined.

(** ** The toy variant *)

(** X13: toy verification looks for the extracted toy directory first,
    then for the toy archive, and only then considers downloading.  With
    the directory present it does nothing but rebind [root]; with only
    the archive present it extracts it (no download); with neither and
    the download flag on it downloads the archive into the old root and
    extracts it; with neither and the flag off it raises
    [DatasetNotFoundError] having changed nothing. *)
Theorem verify_toy_outcome
    (fetch_effect : string → string → World → World)
    (unpack_effect : string → World → World)
    (self : FLAIR2) (st : state) :
  let toy_root := Py.os_path_join (root self) ["flair_2_toy_dataset"] in
  let archive := Py.os_path_join (root self) ["flair_2_toy_dataset.zip"] in
  let url := Py.os_path_join url_prefix ["flair_2_toy_dataset.zip"] in
  let r := _verify_toy fetch_effect unpack_effect self st in
  ∃ events : list event,
    trace r.2 = trace st ++ events
    ∧ cls_dir_names r.2 = cls_dir_names st
    ∧ (r.1, filter (fun e => is_download e || is_extract e) events) =
      if isdir (world st) toy_root then (inr (set_root self toy_root), [])
      else if isfile (world st) archive
      then (inr (set_root self toy_root), [EvExtract archive])
      else if download self
      then (inr (set_root self toy_root),
            [EvDownload url (root self); EvExtract archive])
      else (inl DatasetNotFoundError, []).
Proof.
  intros toy_root archive url r. subst r toy_root archive url.
  unfold _verify_toy, bind, os_path_isdir, os_path_isfile. simpl.
  destruct (isdir _ _); [|destruct (isfile _ _); [|destruct (download self)]];
    simpl; eexists; (split; [rewrite <- ?app_assoc; reflexivity|]);
    split; reflexivity.
Qed.

(** ** Recovery from local archives *)

#[local] Instance no_effect_reflexive : Reflexive no_effect.
Proof. by intros s. Qed.
#[local] Instance no_effect_transitive : Transitive no_effect.
Proof. unfold no_effect. intros s1 s2 s3 H1 H2. congruence. Qed.

Lemma no_effect_record_event e s :
  is_effect e = false → no_effect s (record_event e s).
Proof.
  intros He. unfold no_effect. cbn [trace record_event].
  rewrite filter_app, filter_cons, He. simpl.
  by rewrite filter_nil, app_nil_r.
Qed.

Lemma scan_dirs_no_effect self items : ∀ acc,
  keeps no_effect (scan_dirs self items acc).
Proof.
  induction items as [|[k d] items IH]; intros acc; cbn [scan_dirs].
  { apply keeps_ret, _. }
  apply keeps_bind; [apply _| |intros present].
  { intros s. by apply no_effect_record_event. }
  destruct present; cbn [negb]; [|apply IH].
  apply keeps_bind; [apply _|apply keeps_of_option, _|intros pattern].
  apply keeps_bind; [apply _| |intros files_glob].
  { destruct pattern; [apply keeps_ret | apply keeps_raise]; apply _. }
  apply keeps_bind; [apply _| |intros found].
  { intros s. by apply no_effect_record_event. }
  destruct found; apply IH.
Qed.

Section LocalArchives.
Variable fetch_effect : string → string → World → World.
Variable unpack_effect : string → World → World.
Variable self : FLAIR2.

(** When every present directory has a string pattern, the scan returns
    the directories in need, in order, after what was listed already. *)
Lemma scan_dirs_exact items : ∀ acc st,
  present_dirs_have_string_globs (world st) (root self) items →
  ∃ st',
    scan_dirs self items acc st
      = (inr (acc ++ dirs_in_need (world st) (root self) items), st')
    ∧ world st' = world st.
Proof.
  induction items as [|[k d] items IH]; intros acc st Hglobs.
  { exists st. unfold dirs_in_need. simpl. by rewrite app_nil_r. }
  assert (present_dirs_have_string_globs (world st) (root self) items)
    as Hrest.
  { intros k' d' Hin. apply Hglobs. by right. }
  cbn [scan_dirs]. rewrite bind_isdir.
  set (st1 := record_event _ st).
  unfold dirs_in_need. cbn [List.filter]. unfold in_need at 1. cbn [fst snd].
  destruct (isdir (world st) (Py.os_path_join (root self) [d])) eqn:Hd;
    cbn [negb].
  - destruct (Hglobs k d) as [pat Hpat]; [left|done|].
    unfold globs_getitem. rewrite Hpat. cbn [of_option].
    rewrite bind_ret. cbn [os_path_join_val]. rewrite bind_ret, bind_glob.
    set (st2 := record_event _ st1). cbn [world record_event st1].
    destruct (glob_matches (world st) _ true) as [|f fs] eqn:Hfound.
    + destruct (IH (acc ++ [d]) st2 Hrest) as (st' & Hrun & Hw).
      exists st'. split; [|done]. rewrite Hrun. cbn [map].
      by rewrite <- app_assoc.
    + destruct (IH acc st2 Hrest) as (st' & Hrun & Hw). by exists st'.
  - destruct (IH (acc ++ [d]) st1 Hrest) as (st' & Hrun & Hw).
    exists st'. split; [|done]. rewrite Hrun. cbn [map].
    by rewrite <- app_assoc.
Qed.

(** When every candidate has its archive on disk, and extractions do
    not remove archives, the second loop extracts them all in order,
    does nothing else, and empties the download list. *)
Lemma extract_local_all candidates : ∀ to_download st,
  keeps_present_archives unpack_effect →
  (∀ c, c ∈ candidates →
        glob_matches (world st) (archive_path (root self) c) false ≠ []) →
  candidates ≡ₚ to_download →
  ∃ st',
    extract_local unpack_effect self candidates to_download st = (inr [], st')
    ∧ filter is_effect (trace st')
      = filter is_effect (trace st)
        ++ map (fun c => EvExtract (archive_path (root self) c)) candidates.
Proof.
  induction candidates as [|c candidates IH];
    intros to_download st Hkeep Hzip Hperm.
  { apply Permutation_nil_l in Hperm as <-. exists st.
    by rewrite app_nil_r. }
  cbn [extract_local]. rewrite bind_glob.
  pose proof (Hzip c ltac:(left)) as Hc. unfold archive_path in Hc.
  destruct (glob_matches (world st)
              (Py.os_path_join (root self) [c +:+ ".zip"]) false)
    as [|f fs] eqn:Hfound; [done|].
  rewrite bind_extract.
  destruct (list_remove_Some c to_download) as (rest & Hrem & Hperm').
  { rewrite <- Hperm. left. }
  rewrite Hrem. cbn [of_option]. rewrite bind_ret.
  edestruct (IH rest) as (st' & Hrun & Hex); [done| |
    |exists st'; split; [exact Hrun|]].
  - intros c' Hc'. cbn [world record_event]. apply Hkeep, Hzip. by right.
  - apply (Permutation_cons_inv (a := c)). by rewrite Hperm, Hperm'.
  - rewrite Hex. cbn [trace record_event]. rewrite !filter_app. simpl.
    by rewrite app_nil_r, <- app_assoc.
Qed.
End LocalArchives.

(** X14: outside toy mode, when the centroid file is there, every split
    directory that is present has a plain string as glob pattern, and
    every directory that is absent or without matching file has its
    archive on disk (extractions not removing archives), verification
    succeeds whatever the download flag: it returns the instance and its
    downloads and extractions are exactly these: one extraction of the
    archive of each directory in need, in the order of the class
    dictionary, and no download. *)
Theorem verify_recovers_from_local_archives
    (fetch_effect : string → string → World → World)
    (unpack_effect : string → World → World)
    (self : FLAIR2) (st : state) (items : list (string * string)) :
  use_toy self = false →
  isfile (world st)
         (Py.os_path_join (root self) [centroids_file +:+ ".json"]) = true →
  Py.assoc_get (split self) (cls_dir_names st) = Some items →
  present_dirs_have_string_globs (world st) (root self) items →
  keeps_present_archives unpack_effect →
  (∀ d, d ∈ dirs_in_need (world st) (root self) items →
        glob_matches (world st) (archive_path (root self) d) false ≠ []) →
  ∃ st' : state,
    _verify fetch_effect unpack_effect self st = (inr self, st')
    ∧ filter is_effect (trace st')
      = filter is_effect (trace st)
        ++ map (fun d => EvExtract (archive_path (root self) d))
               (dirs_in_need (world st) (root self) items).
Proof.
  intros Htoy Hjson Hitems Hglobs Hkeep Hzips.
  unfold _verify. rewrite Htoy, bind_isfile, Hjson. cbn [negb].
  rewrite bind_ret, bind_dir_names_getitem. cbn [cls_dir_names record_event].
  rewrite Hitems. set (st1 := record_event _ st).
  destruct (scan_dirs_exact self items [] st1 Hglobs) as (st2 & Hscan & Hw).
  cbn [app world record_event st1] in Hscan.
  assert (filter is_effect (trace st2) = filter is_effect (trace st)) as Htr2.
  { pose proof (scan_dirs_no_effect self items [] st1) as Hne.
    rewrite Hscan in Hne. unfold no_effect in Hne. cbn [snd] in Hne.
    rewrite Hne. subst st1. cbn [trace record_event].
    rewrite filter_app. simpl. by rewrite app_nil_r. }
  rewrite (bind_returns _ _ _ _ _ Hscan).
  destruct (dirs_in_need (world st) (root self) items) as [|c to_extract]
    eqn:Hneed.
  { exists st2. split; [done|]. simpl. by rewrite app_nil_r. }
  destruct (extract_local_all unpack_effect self (c :: to_extract)
              (c :: to_extract) st2 Hkeep)
    as (st3 & Hloc & Hex3); [|done|].
  { intros d Hd. rewrite Hw. by apply Hzips. }
  rewrite (bind_returns _ _ _ _ _ Hloc).
  exists st3. split; [done|]. congruence.
Qed.

Lemma verify_recovers_from_local_archives_witness :
  ∃ st' : state,
    _verify Scenario.fetch Scenario.unpack
      (Instance "data" "train" None false false all_bands false ∅ [])
      (Scenario.fresh archived_disk)
    = (inr (Instance "data" "train" None false false all_bands false ∅ []),
       st')
    ∧ filter is_effect (trace st')
      = [ EvExtract "data/flair_aerial_train.zip";
          EvExtract "data/flair_sen_train.zip";
          EvExtract "data/flair_labels_train.zip" ].
Proof.
  destruct (verify_recovers_from_local_archives
              Scenario.fetch Scenario.unpack
              (Instance "data" "train" None false false all_bands false ∅ [])
              (Scenario.fresh archived_disk)
              [ ("images", "flair_aerial_train");
                ("sentinels", "flair_sen_train");
                ("masks", "flair_labels_train") ]
              eq_refl eq_refl eq_refl)
    as (st' & Hrun & Hex).
  - intros kind dir_name Hin Hdir. exfalso.
    repeat (apply elem_of_cons in Hin as [[= -> ->]|Hin];
            [vm_compute in Hdir; discriminate|]).
    by apply elem_of_nil in Hin.
  - intros zipfile archive w Hw. exact Hw.
  - intros d Hd. vm_compute in Hd.
    repeat (apply elem_of_cons in Hd as [->|Hd]; [vm_compute; discriminate|]).
    by apply elem_of_nil in Hd.
  - exists st'. split; [exact Hrun|]. rewrite Hex. by vm_compute.
Defined.

(** ** What a constructed instance holds *)

(** X15: when construction returns an instance, the split was a
    supported one, the instance carries the arguments it was built from
    (with [root] moved to the toy directory in toy mode), its centroid
    table is what the JSON file under that root holds in the final file
    system, and its index is what [_load_files] returned for it as the
    last, read-only step of construction. *)
Theorem init_postcondition
    (fetch_effect : string → string → World → World)
    (unpack_effect : string → World → World)
    (r sp : string) (bs : list string)
    (tr : option (sample → sample))
    (dl ck toy : bool) (st st' : state) (self : FLAIR2) :
  __init__ fetch_effect unpack_effect r sp bs tr dl ck toy st
    = (inr self, st') →
  sp ∈ splits
  ∧ root self = (if toy then Py.os_path_join r ["flair_2_toy_dataset"] else r)
  ∧ split self = sp ∧ bands self = bs ∧ transforms self = tr
  ∧ download self = dl ∧ checksum self = ck ∧ use_toy self = toy
  ∧ json_content (world st')
      (Py.os_path_join (root self) [centroids_file +:+ ".json"])
    = Some (centroids self)
  ∧ ∃ s, quiet s st' ∧ _load_files self s = (inr (files self), st').
Proof.
  intros Hrun. unfold __init__ in Hrun.
  case_bool_decide as Hsp; cbn [negb] in Hrun; [|done].
  split; [done|].
  apply bind_inr_inv in Hrun as (self1 & s1 & Hver & Hrun).
  apply verify_result in Hver. cbn [use_toy root] in Hver.
  apply bind_inr_inv in Hrun as (table & s2 & Hjson & Hrun).
  apply bind_inr_inv in Hrun as (index & s3 & Hfiles & Hrun).
  injection Hrun as <- <-.
  pose proof (quiet_load_files (set_centroids self1 table) s2) as (Hw & _).
  rewrite Hfiles in Hw. cbn [snd] in Hw.
  unfold _load_centroids, json_load in Hjson.
  destruct (json_content (world s1) _) as [c|] eqn:Hc; [|done].
  injection Hjson as <- <-. cbn [world record_event] in Hw.
  cbn [root split bands transforms download checksum use_toy centroids
       files set_files set_centroids].
  rewrite Hw, Hc.
  repeat split; try (rewrite Hver; by destruct toy).
  eexists. split; [|exact Hfiles].
  pose proof (quiet_load_files (set_centroids self1 c)
                (record_event
                   (EvOpen (Py.join2 (root self1) (centroids_file +:+ ".json")))
                   s1)) as Hq.
  by rewrite Hfiles in Hq.
Qed.

Lemma init_postcondition_witness :
  match Scenario.construct Scenario.toy_disk "train" all_bands false true with
  | (inr self, _) => root self = "data/flair_2_toy_dataset"
  | (inl _, _) => False
  end.
Proof.
  destruct (Scenario.construct Scenario.toy_disk "train" all_bands false true)
    as [[e|self] st'] eqn:Hrun.
  - vm_compute in Hrun. discriminate.
  - exact (proj1 (proj2 (init_postcondition _ _ _ _ _ _ _ _ _ _ _ _ Hrun))).
Defined.

(** ** Recovery by download *)

Section RemoteArchives.
Variable fetch_effect : string → string → World → World.
Variable unpack_effect : string → World → World.
Variable self : FLAIR2.

(** When no candidate has its archive on disk the second loop changes
    nothing and keeps the whole download list. *)
Lemma extract_local_none candidates : ∀ to_download st,
  (∀ c, c ∈ candidates →
        glob_matches (world st) (archive_path (root self) c) false = []) →
  ∃ st',
    extract_local unpack_effect self candidates to_download st
      = (inr to_download, st')
    ∧ world st' = world st
    ∧ filter is_effect (trace st') = filter is_effect (trace st).
Proof.
  induction candidates as [|c candidates IH]; intros to_download st Hzip.
  { by exists st. }
  cbn [extract_local]. rewrite bind_glob.
  pose proof (Hzip c ltac:(left)) as Hc. unfold archive_path in Hc.
  rewrite Hc.
  edestruct (IH to_download) as (st' & Hrun & Hw & Htr);
    [|exists st'; split; [exact Hrun|]].
  - intros c' Hc'. cbn [world record_event]. apply Hzip. by right.
  - split; [done|]. rewrite Htr. cbn [trace record_event].
    rewrite filter_app. simpl. by rewrite app_nil_r.
Qed.

Lemma download_all_trace to_download : ∀ st,
  ∃ st',
    download_all fetch_effect unpack_effect self to_download st = (inr tt, st')
    ∧ filter is_effect (trace st')
      = filter is_effect (trace st) ++ flat_map (fetch_and_extract (root self)) to_download.
Proof.
  induction to_download as [|c to_download IH]; intros st.
  { exists st. by rewrite app_nil_r. }
  cbn [download_all]. unfold bind at 1, _download, download_url. cbn [fst snd].
  rewrite bind_extract.
  edestruct IH as (st' & Hrun & Htr); exists st'. split; [exact Hrun|].
  rewrite Htr. cbn [trace flat_map fetch_and_extract].
  rewrite !filter_app. simpl. by rewrite <- !app_assoc.
Qed.
End RemoteArchives.

(** X16: outside toy mode with the download flag on, when the centroid
    file is there, every split directory that is present has a plain
    string as glob pattern, and no directory in need has its archive on
    disk, verification returns the instance and its downloads and
    extractions are exactly these: for each directory in need, in the
    order of the class dictionary, the download of its archive followed
    by its extraction. *)
Theorem verify_downloads_what_is_missing
    (fetch_effect : string → string → World → World)
    (unpack_effect : string → World → World)
    (self : FLAIR2) (st : state) (items : list (string * string)) :
  use_toy self = false →
  download self = true →
  isfile (world st)
         (Py.os_path_join (root self) [centroids_file +:+ ".json"]) = true →
  Py.assoc_get (split self) (cls_dir_names st) = Some items →
  present_dirs_have_string_globs (world st) (root self) items →
  (∀ d, d ∈ dirs_in_need (world st) (root self) items →
        glob_matches (world st) (archive_path (root self) d) false = []) →
  ∃ st' : state,
    _verify fetch_effect unpack_effect self st = (inr self, st')
    ∧ filter is_effect (trace st')
      = filter is_effect (trace st)
        ++ flat_map (fetch_and_extract (root self))
                    (dirs_in_need (world st) (root self) items).
Proof.
  intros Htoy Hdl Hjson Hitems Hglobs Hzips.
  unfold _verify. rewrite Htoy, bind_isfile, Hjson. cbn [negb].
  rewrite bind_ret, bind_dir_names_getitem. cbn [cls_dir_names record_event].
  rewrite Hitems. set (st1 := record_event _ st).
  destruct (scan_dirs_exact self items [] st1 Hglobs) as (st2 & Hscan & Hw).
  cbn [app world record_event st1] in Hscan.
  assert (filter is_effect (trace st2) = filter is_effect (trace st)) as Htr2.
  { pose proof (scan_dirs_no_effect self items [] st1) as Hne.
    rewrite Hscan in Hne. unfold no_effect in Hne. cbn [snd] in Hne.
    rewrite Hne. subst st1. cbn [trace record_event].
    rewrite filter_app. simpl. by rewrite app_nil_r. }
  rewrite (bind_returns _ _ _ _ _ Hscan).
  destruct (dirs_in_need (world st) (root self) items) as [|c to_extract]
    eqn:Hneed.
  { exists st2. split; [done|]. simpl. by rewrite app_nil_r. }
  destruct (extract_local_none unpack_effect self (c :: to_extract)
              (c :: to_extract) st2)
    as (st3 & Hloc & Hw3 & Htr3).
  { intros d Hd. rewrite Hw. by apply Hzips. }
  rewrite (bind_returns _ _ _ _ _ Hloc). rewrite Hdl. cbn [negb].
  destruct (download_all_trace fetch_effect unpack_effect self
              (c :: to_extract) st3) as (st4 & Hall & Htr4).
  rewrite (bind_returns _ _ _ _ _ Hall).
  exists st4. split; [done|]. congruence.
Qed.

Lemma verify_downloads_what_is_missing_witness :
  ∃ st' : state,
    _verify Scenario.fetch Scenario.unpack
      (Instance "data" "test" None true false all_bands false ∅ [])
      (Scenario.fresh Scenario.bare_disk)
    = (inr (Instance "data" "test" None true false all_bands false ∅ []), st')
    ∧ length (filter is_effect (trace st')) = 6%nat.
Proof.
  destruct (verify_downloads_what_is_missing
              Scenario.fetch Scenario.unpack
              (Instance "data" "test" None true false all_bands false ∅ [])
              (Scenario.fresh Scenario.bare_disk)
              [ ("images", "flair_2_aerial_test");
                ("sentinels", "flair_2_sen_test");
                ("masks", "flair_2_labels_test") ]
              eq_refl eq_refl eq_refl eq_refl)
    as (st' & Hrun & Htr).
  - intros kind dir_name Hin Hdir. exfalso.
    repeat (apply elem_of_cons in Hin as [[= -> ->]|Hin];
            [vm_compute in Hdir; discriminate|]).
    by apply elem_of_nil in Hin.
  - intros d Hd. vm_compute in Hd.
    repeat (apply elem_of_cons in Hd as [->|Hd]; [reflexivity|]).
    by apply elem_of_nil in Hd.
  - exists st'. split; [exact Hrun|]. rewrite Htr. by vm_compute.
Defined.
